(** * Verification of utils/plot_perpendicular_hit_distribution.py and
      utils/gui/benchmark/benchmark_plots_container.py

    The numeric procedure [plot_perpendicular_hit_distribution] is modelled
    over the real numbers (exact arithmetic in place of float64).  The
    external collaborators (Hillas fit, FITS loader, cleaning and assessment
    routines, the file system) are Section variables, so every theorem holds
    for any behaviour of them.  The batch script [main] and the GUI method
    [update_plots] are modelled in a small state and exception monad whose
    state is the log of observable effects (loads, prints, drawing, saves). *)

From Stdlib Require Import Reals Lra Lia String Ascii Bool List.
Import ListNotations.
Open Scope R_scope.

(* ------------------------------------------------------------------ *)
(** ** numpy helpers *)

(** [np.linspace(start, stop, num)]: [start + i * step] with
    [step = (stop - start) / (num - 1)], and, as numpy does with
    [endpoint=True], the last sample set to [stop] exactly. *)
Definition linspace (start stop : R) (num : nat) : list R :=
  map (fun i => if Nat.eqb i (num - 1) then stop
                else start + INR i * ((stop - start) / INR (num - 1)))
      (seq 0 num).

(** [#{v in a | v < e}]: [searchsorted(sort(a), e, side='left')]. *)
Definition count_lt (e : R) (a : list R) : nat :=
  List.length (filter (fun v => if Rlt_dec v e then true else false) a).

(** [#{v in a | v <= e}]: [searchsorted(sort(a), e, side='right')]. *)
Definition count_le (e : R) (a : list R) : nat :=
  List.length (filter (fun v => if Rle_dec v e then true else false) a).

(** numpy's [_search_sorted_inclusive(a, bin_edges)]: a left search for
    every edge but the last, a right search for the last one. *)
Fixpoint search_sorted_inclusive (a : list R) (edges : list R) : list nat :=
  match edges with
  | [] => []
  | [e] => [count_le e a]
  | e :: rest => count_lt e a :: search_sorted_inclusive a rest
  end.

(** [np.diff] on a vector of counts. *)
Fixpoint diff (l : list nat) : list nat :=
  match l with
  | x :: ((y :: _) as t) => (y - x)%nat :: diff t
  | _ => []
  end.

(** [np.histogram(a, bins=edges)[0]] for an explicit array of edges
    (the non-uniform branch: [cum_n = _search_sorted_inclusive(a, edges)];
    [n = np.diff(cum_n)]). *)
Definition histogram (a : list R) (edges : list R) : list nat :=
  diff (search_sorted_inclusive a edges).

(** The values lying in the closed range [[lo, hi]]. *)
Definition in_range (lo hi v : R) : bool :=
  if Rle_dec lo v then if Rle_dec v hi then true else false else false.

(** The values lying in the half-open bin [[lo, hi)]. *)
Definition in_bin (lo hi v : R) : bool :=
  if Rle_dec lo v then if Rlt_dec v hi then true else false else false.

(* ------------------------------------------------------------------ *)
(** ** plot_perpendicular_hit_distribution *)

(** The fields of a ctapipe [MomentParameters] read by the code. *)
Record hillas := mk_hillas {
  cen_x : R;
  cen_y : R;
  length : R;
  width : R;
  psi : R
}.

(** [ctapipe.utils.linalg.normalise]: [vec / length(vec)] with
    [length(vec) = sqrt(vec . vec)]. *)
Definition normalise (v : R * R) : R * R :=
  let n := sqrt (fst v * fst v + snd v * snd v) in
  (fst v / n, snd v / n).

(** [copy.deepcopy] of a numeric array yields an equal array. *)
Definition deepcopy {A : Type} (a : A) : A := a.

(** [ndarray.flatten()] of a 2D array given as its list of rows. *)
Definition flatten (a : list (list R)) : list R := concat a.

Definition size_m : R := 0.2.
Definition num_pixels_x : nat := 40.
Definition num_pixels_y : nat := 40.

Definition grid_x : list R := linspace (-0.142555996776) 0.142555996776 num_pixels_x.
Definition grid_y : list R := linspace (-0.142555996776) 0.142555996776 num_pixels_y.

(** [xx, yy = np.meshgrid(x, y)]: [xx[i][j] = x[j]], [yy[i][j] = y[i]]. *)
Definition meshgrid (x y : list R) : list (list R) * list (list R) :=
  (map (fun _ => x) y, map (fun yi => map (fun _ => yi) x) y).

Definition xx : list (list R) := fst (meshgrid grid_x grid_y).
Definition yy : list (list R) := snd (meshgrid grid_x grid_y).

(** [bins=np.linspace(-size_m, size_m, 31)]. *)
Definition bins : list R := linspace (- size_m) size_m 31.

(** [p2_x = p1_x + h.length * np.cos(h.psi + np.pi/2)] and likewise in y. *)
Definition p2_of (h : hillas) : R * R :=
  (cen_x h + length h * cos (psi h + PI / 2),
   cen_y h + length h * sin (psi h + PI / 2)).

(** [T = linalg.normalise(np.array([p1_x-p2_x, p1_y-p2_y]))]. *)
Definition T_of (h : hillas) : R * R :=
  let p1_x := cen_x h in
  let p1_y := cen_y h in
  let '(p2_x, p2_y) := p2_of h in
  normalise (p1_x - p2_x, p1_y - p2_y).

(** The body of the loop over [{'ref.': ..., 'cleaned': ...}]: from the
    Hillas parameters [h] of the signal to the histogram drawn by
    [axis.hist(dp.ravel(), bins=...)].  [x], [y] are [xx.flatten()],
    [yy.flatten()]; [D], [dl] and [dp] are computed elementwise. *)
Definition hit_distribution_of (h : hillas) : list nat :=
  let p1_x := cen_x h in
  let p1_y := cen_y h in
  let T := T_of h in
  let x := flatten xx in
  let y := flatten yy in
  let D := (map (fun xi => p1_x - xi) x, map (fun yi => p1_y - yi) y) in
  let dl := map (fun '(d0, d1) => d0 * fst T + d1 * snd T) (combine (fst D) (snd D)) in
  let dp := map (fun '(d0, d1) => d0 * snd T - d1 * fst T) (combine (fst D) (snd D)) in
  histogram dp bins.

Section PerpendicularHitDistribution.

(** [hillas_parameters_1(x, y, image)[0]] from ctapipe. *)
Variable hillas_parameters_1 : list R -> list R -> list R -> hillas.

(** [plot_perpendicular_hit_distribution(axis, image_array, title)]: the
    labelled histograms it draws, in the iteration order of the dict. *)
Definition plot_perpendicular_hit_distribution (image_array : list (list R))
  : list (string * list nat) :=
  let ref_image_array := deepcopy image_array in
  let cleaned_image_array := deepcopy image_array in
  let h_ref := hillas_parameters_1 (flatten xx) (flatten yy) (flatten ref_image_array) in
  let h_cleaned := hillas_parameters_1 (flatten xx) (flatten yy) (flatten cleaned_image_array) in
  map (fun '(k, h) => (k, hit_distribution_of h))
      [("ref."%string, h_ref); ("cleaned"%string, h_cleaned)].

End PerpendicularHitDistribution.

(** The transverse distance [dp] of every pixel of the coordinate cloud,
    written pixel by pixel: [D = p1 - (x, y)], [dp = D_x T_y - D_y T_x]. *)
Definition transverse_distances (h : hillas) : list R :=
  map (fun '(x, y) => (cen_x h - x) * snd (T_of h) - (cen_y h - y) * fst (T_of h))
      (combine (flatten xx) (flatten yy)).

(* ------------------------------------------------------------------ *)
(** ** Effects: exceptions and a log of observable actions *)

(** The Python exceptions the modelled code raises or catches. *)
Inductive exn :=
  | NameError (name : string)
  | TypeError
  | KeyError (key : string)
  | Exception (msg : string)
  | AssessError.

(** Observable effects, most recent first in the log. *)
Inductive event :=
  | Load (path : string)
  | Print (args : list string)
  | Subplots
  | PlotImage (title : string)
  | PlotEllipse
  | PlotHitDistribution (title : string)
  | SaveFig (path : string)
  | Show
  | Clf
  | CanvasDraw
  | AddSubplot (pos : nat)
  | DrawImage (title : string).

Definition M (A : Type) : Type := list event -> (exn + A) * list event.

Definition ret {A : Type} (a : A) : M A := fun s => (inr a, s).

Definition bind {A B : Type} (m : M A) (k : A -> M B) : M B :=
  fun s => match m s with
           | (inl e, s') => (inl e, s')
           | (inr a, s') => k a s'
           end.

Definition raise {A : Type} (e : exn) : M A := fun s => (inl e, s).

Definition emit (ev : event) : M unit := fun s => (inr tt, ev :: s).

(** A call to an external routine that returns or raises. *)
Definition lift {A : Type} (r : exn + A) : M A := fun s => (r, s).

Notation "'let*' x := c 'in' k" := (bind c (fun x => k))
  (at level 200, x name, c at level 100, k at level 200).

(** A call to an external plotting routine: it raises, or it returns and
    its effect [ev] is recorded. *)
Definition call (r : exn + unit) (ev : event) : M unit :=
  let* _ := lift r in
  emit ev.

(** [try: body except assess_mod.AssessError: handler]: only an
    [AssessError] is caught; the effects of [body] before the raise stay. *)
Definition try_except_assess (body handler : M unit) : M unit :=
  fun s => match body s with
           | (inl AssessError, s') => handler s'
           | r => r
           end.

(** [if cond: raise Exception(msg)]. *)
Definition raise_if (cond : bool) (msg : string) : M unit :=
  if cond then raise (Exception msg) else ret tt.

Definition not_2d_msg : string :=
  "Unexpected error: the input FITS file should contain a 2D array.".

(** [str(assess_mod.AssessError)]: the printed class. *)
Definition str_AssessError : string :=
  "<class 'datapipe.benchmark.assess.AssessError'>".

(** Elapsed times are printed but not modelled. *)
Definition elapsed : string := "<elapsed>".

(* ------------------------------------------------------------------ *)
(** ** os.path *)

Fixpoint basename_acc (p acc : string) : string :=
  match p with
  | EmptyString => acc
  | String c r =>
      if Ascii.eqb c "/"%char then basename_acc r EmptyString
      else basename_acc r (acc ++ String c EmptyString)%string
  end.

(** [posixpath.basename]: the part after the last ['/']. *)
Definition basename (p : string) : string := basename_acc p EmptyString.

Fixpoint rfind_dot_aux (p : string) (i : nat) (best : option nat) : option nat :=
  match p with
  | EmptyString => best
  | String c r =>
      rfind_dot_aux r (S i) (if Ascii.eqb c "."%char then Some i else best)
  end.

(** [p.rfind('.')], [None] for -1. *)
Definition rfind_dot (p : string) : option nat := rfind_dot_aux p O None.

Fixpoint has_non_dot (p : string) : bool :=
  match p with
  | EmptyString => false
  | String c r => negb (Ascii.eqb c "."%char) || has_non_dot r
  end.

(** [posixpath.splitext] of a path without ['/'] ([genericpath._splitext]
    with [sepIndex = -1]): split at the last dot when a non-dot character
    precedes it. *)
Definition splitext (p : string) : string * string :=
  match rfind_dot p with
  | Some dotIndex =>
      if has_non_dot (substring 0 dotIndex p)
      then (substring 0 dotIndex p, substring dotIndex (String.length p - dotIndex) p)
      else (p, EmptyString)
  | None => (p, EmptyString)
  end.

(* ------------------------------------------------------------------ *)
(** ** Python name resolution in [main] *)

Inductive pyval :=
  | VStr (s : string)
  | VBool (b : bool)
  | VNone
  | VStrList (l : list string)
  | VObj.

Fixpoint assoc (k : string) (env : list (string * pyval)) : option pyval :=
  match env with
  | [] => None
  | (k', v) :: env' => if String.eqb k k' then Some v else assoc k env'
  end.

(** The module-level names of plot_perpendicular_hit_distribution.py. *)
Definition module_globals : list (string * pyval) :=
  [("common", VObj); ("argparse", VObj); ("os", VObj); ("np", VObj);
   ("plt", VObj); ("Ellipse", VObj); ("LogNorm", VObj); ("copy", VObj);
   ("images", VObj); ("linalg", VObj); ("u", VObj);
   ("hillas_parameters_1", VObj); ("hillas_parameters_2", VObj);
   ("COLOR_MAP", VStr "gnuplot2"); ("plot_image", VObj);
   ("plot_ellipse_shower_on_image", VObj);
   ("plot_perpendicular_hit_distribution", VObj); ("main", VObj)]%string.

(** Locals of [main] bound when the directory test runs (names bound in an
    earlier iteration are left out: none of them is read there). *)
Definition main_locals (quiet : bool) (output : option string)
    (input_file_or_dir_path_list : list string) (input_file_or_dir_path : string)
  : list (string * pyval) :=
  [("parser", VObj); ("args", VObj); ("quiet", VBool quiet);
   ("output", match output with Some o => VStr o | None => VNone end);
   ("input_file_or_dir_path_list", VStrList input_file_or_dir_path_list);
   ("input_file_or_dir_path", VStr input_file_or_dir_path)]%string.

(** Reading a name: locals, then module globals, else [NameError]. *)
Definition lookup_name (locals : list (string * pyval)) (name : string) : M pyval :=
  match assoc name locals with
  | Some v => ret v
  | None =>
      match assoc name module_globals with
      | Some v => ret v
      | None => raise (NameError name)
      end
  end.

(* ------------------------------------------------------------------ *)
(** ** The batch script [main] and the GUI method [update_plots] *)

Section Pipeline.

(** numpy arrays, known through their [ndim]. *)
Variable ndarray : Type.
Variable ndim : ndarray -> nat.

(** [images.load_benchmark_images(path)]: the images dict (the metadata
    dict is not read), or the exception it raises. *)
Variable load_benchmark_images : string -> exn + (string -> option ndarray).

(** [os.path.isdir] and [common.get_fits_files_list]. *)
Variable isdir : string -> bool.
Variable get_fits_files_list : string -> list string.

(** [arr.astype('float64', copy=True)]. *)
Variable astype_float64 : ndarray -> ndarray.
(** [Tailcut().clean_image(img, high_threshold, low_threshold)]. *)
Variable tailcut_clean_image : ndarray -> nat -> nat -> exn + ndarray.
(** [WaveletTransform().clean_image(img, kill_isolated_pixels, verbose,
    raw_option_string)]. *)
Variable wavelets_clean_image : ndarray -> bool -> bool -> string -> exn + ndarray.
(** [assess_mod.assess_image_cleaning(input, cleaned, reference,
    benchmark_method)]: the printed form of the score and name tuples, or
    the exception it raises. *)
Variable assess_image_cleaning : ndarray -> ndarray -> ndarray -> string -> exn + string.
(** The plotting routines, which return or raise: [plot_image(ax,
    image, title)] (it raises on an empty array at [image_array.min()]),
    [plot_ellipse_shower_on_image(ax, image)],
    [plot_perpendicular_hit_distribution(ax, image, title)] (it raises in
    [hillas_parameters_1] on an image that is not 40 x 40),
    [plt.savefig(path)], and [self._draw_image(ax, image, title)] (it
    raises on an empty or non-2D array). *)
Variable plot_image : ndarray -> string -> exn + unit.
Variable plot_ellipse_shower_on_image : ndarray -> exn + unit.
Variable plot_hit_distribution : ndarray -> string -> exn + unit.
Variable savefig : string -> exn + unit.
Variable draw_image : ndarray -> string -> exn + unit.

(** [d[k]] on the images dict. *)
Definition getitem (d : string -> option ndarray) (k : string) : M ndarray :=
  match d k with
  | Some v => ret v
  | None => raise (KeyError k)
  end.

(** The body of the inner loop of [main], for one [input_file_path];
    [output] is the variable [output] of [main], returned updated. *)
Definition process_file (quiet : bool) (output : option string)
    (input_file_path : string) : M (option string) :=
  let* _ := emit (Load input_file_path) in
  let* fits_images_dict := lift (load_benchmark_images input_file_path) in
  let* input_img := getitem fits_images_dict "input_image" in
  let* reference_img := getitem fits_images_dict "reference_image" in
  let* _ := raise_if (negb (Nat.eqb (ndim input_img) 2)) not_2d_msg in
  let* _ := raise_if (negb (Nat.eqb (ndim reference_img) 2)) not_2d_msg in
  let* _ := emit Subplots in
  let* _ := call (plot_image reference_img "Reference image") (PlotImage "Reference image") in
  let* _ := call (plot_ellipse_shower_on_image reference_img) PlotEllipse in
  let* _ := call (plot_hit_distribution reference_img "Perpendicular hit distribution")
                 (PlotHitDistribution "Perpendicular hit distribution") in
  let base_file_path := basename input_file_path in
  let base_file_path := fst (splitext base_file_path) in
  let output := match output with
                | None => (base_file_path ++ ".pdf")%string
                | Some o => o
                end in
  let* _ := call (savefig output) (SaveFig output) in
  let* _ := if quiet then ret tt else emit Show in
  ret (Some output).

(** [for input_file_path in input_file_path_list: ...]. *)
Fixpoint process_files (quiet : bool) (output : option string)
    (input_file_path_list : list string) : M (option string) :=
  match input_file_path_list with
  | [] => ret output
  | input_file_path :: rest =>
      let* output := process_file quiet output input_file_path in
      process_files quiet output rest
  end.

(** [if os.path.isdir(p): input_file_path_list =
    common.get_fits_files_list(input_directory_path) else: [p]]. *)
Definition expand_arg (locals : list (string * pyval))
    (input_file_or_dir_path : string) : M (list string) :=
  if isdir input_file_or_dir_path then
    let* v := lookup_name locals "input_directory_path" in
    match v with
    | VStr d => ret (get_fits_files_list d)
    | _ => raise TypeError
    end
  else ret [input_file_or_dir_path].

(** [for input_file_or_dir_path in input_file_or_dir_path_list: ...]. *)
Fixpoint main_loop (quiet : bool) (input_file_or_dir_path_list : list string)
    (output : option string) (args : list string) : M unit :=
  match args with
  | [] => ret tt
  | input_file_or_dir_path :: rest =>
      let* input_file_path_list :=
        expand_arg (main_locals quiet output input_file_or_dir_path_list
                                input_file_or_dir_path)
                   input_file_or_dir_path in
      let* output := process_files quiet output input_file_path_list in
      main_loop quiet input_file_or_dir_path_list output rest
  end.

(** [main()] after [parser.parse_args()]: [--quiet], [--output] and the
    positional [fileargs]. *)
Definition main (quiet : bool) (output : option string) (fileargs : list string) : M unit :=
  main_loop quiet fileargs output fileargs.

(** The attributes of a [BenchmarkPlotsContainer] read by [update_plots];
    [wavelets_options] is the text of [wavelets_options_entry]. *)
Record container := mk_container {
  input_directory_path : string;
  current_file_path : option string;
  kill_isolated_pixels : bool;
  wavelets_options : string
}.

(** [self.clear_figure()]. *)
Definition clear_figure : M unit :=
  let* _ := emit Clf in
  emit CanvasDraw.

(** [BenchmarkPlotsContainer.update_plots]. *)
Definition update_plots (self : container) : M unit :=
  match current_file_path self with
  | None => ret tt
  | Some path =>
      let* _ := emit (Load path) in
      let* fits_images_dict := lift (load_benchmark_images path) in
      let* input_img := getitem fits_images_dict "input_image" in
      let* reference_img := getitem fits_images_dict "reference_image" in
      let* _ := raise_if (negb (Nat.eqb (ndim input_img) 2)) not_2d_msg in
      let* _ := raise_if (negb (Nat.eqb (ndim reference_img) 2)) not_2d_msg in
      (* Tailcut *)
      let input_img_copy := astype_float64 input_img in
      let* tailcut_cleaned_img := lift (tailcut_clean_image input_img_copy 10 5) in
      (* Wavelets *)
      let input_img_copy := astype_float64 input_img in
      let option_string := wavelets_options self in
      let* _ := emit (Print [option_string]) in
      let* wavelets_cleaned_img :=
        lift (wavelets_clean_image input_img_copy (kill_isolated_pixels self) true option_string) in
      (* Execution time *)
      let* _ := emit (Print ["Tailcut execution time: "; elapsed]%string) in
      let* _ := emit (Print ["Wavelets execution time: "; elapsed]%string) in
      (* Tailcut scores *)
      let* _ := try_except_assess
        (let* sc := lift (assess_image_cleaning input_img tailcut_cleaned_img reference_img "all") in
         emit (Print ["TC:"; sc]%string))
        (emit (Print ["TC: "; str_AssessError]%string)) in
      (* Wavelets scores *)
      let* _ := try_except_assess
        (let* sc := lift (assess_image_cleaning input_img wavelets_cleaned_img reference_img "all") in
         emit (Print ["WT:"; sc]%string))
        (emit (Print ["WT: "; str_AssessError]%string)) in
      (* Update the widget *)
      let* _ := clear_figure in
      let* _ := emit (AddSubplot 221) in
      let* _ := emit (AddSubplot 222) in
      let* _ := emit (AddSubplot 223) in
      let* _ := emit (AddSubplot 224) in
      let* _ := call (draw_image input_img "Input") (DrawImage "Input") in
      let* _ := call (draw_image reference_img "Reference") (DrawImage "Reference") in
      let* _ := call (draw_image tailcut_cleaned_img "Tailcut") (DrawImage "Tailcut") in
      let* _ := call (draw_image wavelets_cleaned_img "Wavelets") (DrawImage "Wavelets") in
      emit CanvasDraw
  end.

End Pipeline.

(** The paths passed to [plt.savefig], oldest first. *)
Definition saved_paths (log : list event) : list string :=
  rev (flat_map (fun ev => match ev with SaveFig p => [p] | _ => [] end) log).

(** The paths loaded, oldest first. *)
Definition loaded_paths (log : list event) : list string :=
  rev (flat_map (fun ev => match ev with Load p => [p] | _ => [] end) log).

(** The number of [plt.show()] calls in a log. *)
Definition show_count (log : list event) : nat :=
  List.length (filter (fun ev => match ev with Show => true | _ => false end) log).

(** The name [main] gives a figure when [output] is [None]:
    [os.path.splitext(os.path.basename(p))[0] + ".pdf"]. *)
Definition default_output (p : string) : string :=
  (fst (splitext (basename p)) ++ ".pdf")%string.

(** Whether the character [c] occurs in [s]. *)
Fixpoint contains_char (c : ascii) (s : string) : bool :=
  match s with
  | EmptyString => false
  | String c' r => Ascii.eqb c' c || contains_char c r
  end.

(* ------------------------------------------------------------------ *)
(** ** plot_ellipse_shower_on_image: the coordinate cloud *)

(** [np.arange(0, n, 1)]. *)
Definition arange (n : nat) : list R := map INR (seq 0 n).

(** The three arrays passed to [hillas_parameters_2]:
    [x = np.arange(0, np.shape(image_array)[0], 1)],
    [y = np.arange(0, np.shape(image_array)[1], 1)],
    [xx, yy = np.meshgrid(x, y)], then [xx.flatten()], [yy.flatten()] and
    [image_array.flatten()] (the image is a list of rows, so its shape is
    [(number of rows, length of a row)]). *)
Definition ellipse_cloud (image_array : list (list R)) : list R * list R * list R :=
  let x := arange (List.length image_array) in
  let y := arange (List.length (hd [] image_array)) in
  let '(xx, yy) := meshgrid x y in
  (flatten xx, flatten yy, flatten image_array).

(* ------------------------------------------------------------------ *)
(** ** Colour ranges of [plot_image] and [_draw_image] *)

(** [image_array.min()] and [image_array.max()]; numpy raises a
    [ValueError] ([None] here) on an empty array. *)
Definition arr_min (a : list R) : option R :=
  match a with [] => None | v :: r => Some (fold_left Rmin r v) end.
Definition arr_max (a : list R) : option R :=
  match a with [] => None | v :: r => Some (fold_left Rmax r v) end.

Inductive colour_norm :=
  | LogNorm (vmin vmax : R)
  | Linear (vmin vmax : R).

(** The colour normalisation of [plot_image(axis, image_array, title,
    plot_log_scale)]: [LogNorm(vmin=0.01, vmax=image_array.max())] or
    [vmin=z_min, vmax=z_max]; [None] when [z_min, z_max] raise. *)
Definition plot_image_norm (image_array : list (list R)) (plot_log_scale : bool)
  : option colour_norm :=
  match arr_min (flatten image_array), arr_max (flatten image_array) with
  | Some z_min, Some z_max =>
      Some (if plot_log_scale then LogNorm 0.01 z_max else Linear z_min z_max)
  | _, _ => None
  end.

(** The colour range of [BenchmarkPlotsContainer._draw_image]:
    [vmin=z_min, vmax=z_max]. *)
Definition draw_image_norm (image_array : list (list R)) : option colour_norm :=
  match arr_min (flatten image_array), arr_max (flatten image_array) with
  | Some z_min, Some z_max => Some (Linear z_min z_max)
  | _, _ => None
  end.

(* ------------------------------------------------------------------ *)
(** ** BenchmarkPlotsContainer.selection_changed_callback *)

Definition starts_with_slash (s : string) : bool :=
  match s with
  | String c _ => Ascii.eqb c "/"%char
  | EmptyString => false
  end.

Fixpoint ends_with_slash (s : string) : bool :=
  match s with
  | EmptyString => false
  | String c EmptyString => Ascii.eqb c "/"%char
  | String _ r => ends_with_slash r
  end.

(** [posixpath.join(a, b)]. *)
Definition os_path_join (a b : string) : string :=
  if starts_with_slash b then b
  else if String.eqb a EmptyString || ends_with_slash a then (a ++ b)%string
  else (a ++ "/" ++ b)%string.

Section GuiCallbacks.

Variable ndarray : Type.
Variable ndim : ndarray -> nat.
Variable load_benchmark_images : string -> exn + (string -> option ndarray).
Variable astype_float64 : ndarray -> ndarray.
Variable tailcut_clean_image : ndarray -> nat -> nat -> exn + ndarray.
Variable wavelets_clean_image : ndarray -> bool -> bool -> string -> exn + ndarray.
Variable assess_image_cleaning : ndarray -> ndarray -> ndarray -> string -> exn + string.
Variable draw_image : ndarray -> string -> exn + unit.

(** [selection_changed_callback(self, file_name)]: the container after
    [self.current_file_path = os.path.join(self.input_directory_path,
    file_name)], and the [self.update_plots()] that follows. *)
Definition selection_changed_callback (self : container) (file_name : string)
  : container * M unit :=
  let self := mk_container (input_directory_path self)
                (Some (os_path_join (input_directory_path self) file_name))
                (kill_isolated_pixels self) (wavelets_options self) in
  (self, update_plots ndarray ndim load_benchmark_images astype_float64
           tailcut_clean_image wavelets_clean_image assess_image_cleaning draw_image self).

End GuiCallbacks.

(** A computation that only adds events in front of the log. *)
Definition extends {A : Type} (m : M A) : Prop :=
  forall s, exists evs, snd (m s) = evs ++ s.

(** Adjacent edges are in non-decreasing order. *)
Fixpoint edges_sorted (l : list R) : Prop :=
  match l with
  | x :: ((y :: _) as t) => x <= y /\ edges_sorted t
  | _ => True
  end.

Fixpoint nondecr (l : list nat) : Prop :=
  match l with
  | x :: ((y :: _) as t) => (x <= y)%nat /\ nondecr t
  | _ => True
  end.

(* ------------------------------------------------------------------ *)
(** ** Lemmas on the histogram *)

Lemma last_cons_default {A : Type} (y : A) (l : list A) (d d' : A) :
  last (y :: l) d = last (y :: l) d'.
Proof.
  revert y; induction l as [|z l IH]; intros y; simpl; [reflexivity|].
  apply IH.
Qed.

Lemma nondecr_le_last (l : list nat) (x : nat) :
  nondecr (x :: l) -> (x <= last (x :: l) x)%nat.
Proof.
  revert x; induction l as [|y l IH]; intros x H; [simpl; lia|].
  destruct H as [Hxy H].
  specialize (IH y H).
  change (last (x :: y :: l) x) with (last (y :: l) x).
  rewrite (last_cons_default y l x y); lia.
Qed.

Lemma sum_diff (l : list nat) (x : nat) :
  nondecr (x :: l) ->
  list_sum (diff (x :: l)) = (last (x :: l) x - x)%nat.
Proof.
  revert x; induction l as [|y l IH]; intros x H; [simpl; lia|].
  destruct H as [Hxy H].
  pose proof (nondecr_le_last l y H) as Hl.
  specialize (IH y H).
  change (diff (x :: y :: l)) with ((y - x)%nat :: diff (y :: l)).
  change (last (x :: y :: l) x) with (last (y :: l) x).
  rewrite (last_cons_default y l x y).
  change (list_sum ((y - x)%nat :: diff (y :: l)))
    with ((y - x) + list_sum (diff (y :: l)))%nat.
  rewrite IH. lia.
Qed.

Lemma length_diff (l : list nat) : List.length (diff l) = (List.length l - 1)%nat.
Proof.
  induction l as [|x l IH]; [reflexivity|].
  destruct l as [|y l]; [reflexivity|].
  simpl in *. rewrite IH. lia.
Qed.

Lemma length_search_sorted_inclusive (a edges : list R) :
  List.length (search_sorted_inclusive a edges) = List.length edges.
Proof.
  induction edges as [|e rest IH]; [reflexivity|].
  destruct rest; simpl in *; [reflexivity|]. now rewrite IH.
Qed.

Lemma count_lt_mono (a : list R) (e1 e2 : R) :
  e1 <= e2 -> (count_lt e1 a <= count_lt e2 a)%nat.
Proof.
  intros He; unfold count_lt; induction a as [|v a IH]; simpl; [lia|].
  destruct (Rlt_dec v e1), (Rlt_dec v e2); simpl; try lia; lra.
Qed.

Lemma count_lt_le (a : list R) (e1 e2 : R) :
  e1 <= e2 -> (count_lt e1 a <= count_le e2 a)%nat.
Proof.
  intros He; unfold count_lt, count_le; induction a as [|v a IH]; simpl; [lia|].
  destruct (Rlt_dec v e1), (Rle_dec v e2); simpl; try lia; lra.
Qed.

Lemma count_le_split (a : list R) (lo hi : R) :
  lo <= hi ->
  count_le hi a = (count_lt lo a + List.length (filter (in_range lo hi) a))%nat.
Proof.
  intros He; unfold count_lt, count_le, in_range; induction a as [|v a IH]; simpl; [lia|].
  destruct (Rlt_dec v lo), (Rle_dec v hi), (Rle_dec lo v); simpl; try lia; lra.
Qed.

Lemma last_search_sorted_inclusive (a : list R) (rest : list R) (e : R) (d : nat) :
  last (search_sorted_inclusive a (e :: rest)) d = count_le (last (e :: rest) e) a.
Proof.
  revert e; induction rest as [|e' rest IH]; intros e; [reflexivity|].
  change (search_sorted_inclusive a (e :: e' :: rest))
    with (count_lt e a :: search_sorted_inclusive a (e' :: rest)).
  change (last (e :: e' :: rest) e) with (last (e' :: rest) e).
  rewrite (last_cons_default e' rest e e'), <- (IH e').
  destruct rest; reflexivity.
Qed.

Lemma head_le_last_sorted (rest : list R) (e : R) :
  edges_sorted (e :: rest) -> e <= last (e :: rest) e.
Proof.
  revert e; induction rest as [|e' rest IH]; intros e Hs; [simpl; lra|].
  destruct Hs as [H Hs].
  change (last (e :: e' :: rest) e) with (last (e' :: rest) e).
  rewrite (last_cons_default e' rest e e').
  specialize (IH e' Hs); lra.
Qed.

Lemma nondecr_search_sorted_inclusive (a : list R) (rest : list R) (e : R) :
  edges_sorted (e :: rest) -> nondecr (search_sorted_inclusive a (e :: rest)).
Proof.
  revert e; induction rest as [|e' rest IH]; intros e Hs; [exact I|].
  destruct Hs as [H Hs].
  specialize (IH e' Hs).
  change (search_sorted_inclusive a (e :: e' :: rest))
    with (count_lt e a :: search_sorted_inclusive a (e' :: rest)).
  destruct rest as [|e'' rest].
  - simpl. split; [apply count_lt_le; exact H|exact I].
  - change (search_sorted_inclusive a (e' :: e'' :: rest))
      with (count_lt e' a :: search_sorted_inclusive a (e'' :: rest)) in *.
    split; [apply count_lt_mono; exact H|exact IH].
Qed.

(** The general histogram law: with sorted edges [e :: rest] (at least
    two of them), [np.histogram] has one bin fewer than edges and its
    counts add up to the number of values within [[e, last edge]]. *)
Lemma histogram_law (a : list R) (e e' : R) (rest : list R) :
  edges_sorted (e :: e' :: rest) ->
  List.length (histogram a (e :: e' :: rest)) = S (List.length rest) /\
  list_sum (histogram a (e :: e' :: rest))
    = List.length (filter (in_range e (last (e :: e' :: rest) e)) a).
Proof.
  intros Hs; split.
  - unfold histogram. rewrite length_diff, length_search_sorted_inclusive.
    simpl. lia.
  - unfold histogram.
    pose proof (nondecr_search_sorted_inclusive a (e' :: rest) e Hs) as Hn.
    change (search_sorted_inclusive a (e :: e' :: rest))
      with (count_lt e a :: search_sorted_inclusive a (e' :: rest)) in *.
    rewrite sum_diff by exact Hn.
    rewrite (last_cons_default _ _ (count_lt e a) O).
    change (count_lt e a :: search_sorted_inclusive a (e' :: rest))
      with (search_sorted_inclusive a (e :: e' :: rest)).
    rewrite last_search_sorted_inclusive.
    rewrite (count_le_split a e) by (apply head_le_last_sorted; exact Hs).
    lia.
Qed.

(** ** Lemmas on [np.linspace] *)

Lemma edges_sorted_map_seq (f : nat -> R) (k n : nat) :
  (forall i, (k <= i)%nat -> (S i < k + n)%nat -> f i <= f (S i)) ->
  edges_sorted (map f (seq k n)).
Proof.
  revert k; induction n as [|n IH]; intros k Hf; [exact I|].
  destruct n as [|n]; [exact I|].
  change (map f (seq k (S (S n)))) with (f k :: map f (seq (S k) (S n))).
  change (map f (seq (S k) (S n))) with (f (S k) :: map f (seq (S (S k)) n)).
  split.
  - apply Hf; lia.
  - change (f (S k) :: map f (seq (S (S k)) n)) with (map f (seq (S k) (S n))).
    apply IH. intros i Hi Hi'. apply Hf; lia.
Qed.

Lemma linspace_sorted (start stop : R) (num : nat) :
  start <= stop -> edges_sorted (linspace start stop num).
Proof.
  intros Hss. unfold linspace. apply edges_sorted_map_seq.
  intros i _ Hi. simpl in Hi.
  assert (Hn : 0 < INR (num - 1)) by (apply lt_0_INR; lia).
  assert (Hs : 0 <= (stop - start) / INR (num - 1))
    by (unfold Rdiv; apply Rmult_le_pos; [lra|left; apply Rinv_0_lt_compat; exact Hn]).
  assert (Hstep : INR (num - 1) * ((stop - start) / INR (num - 1)) = stop - start)
    by (field; lra).
  destruct (Nat.eqb_spec i (num - 1)) as [E|E]; [lia|].
  destruct (Nat.eqb_spec (S i) (num - 1)) as [E'|E'].
  - assert (Hle : INR i <= INR (num - 1)) by (apply le_INR; lia).
    nra.
  - rewrite S_INR. nra.
Qed.

Lemma nth_linspace (start stop : R) (num i : nat) :
  (i < num)%nat ->
  nth i (linspace start stop num) 0
    = if Nat.eqb i (num - 1) then stop
      else start + INR i * ((stop - start) / INR (num - 1)).
Proof.
  intros Hi. unfold linspace.
  set (f := fun i => if Nat.eqb i (num - 1) then stop
      else start + INR i * ((stop - start) / INR (num - 1))).
  rewrite (nth_indep (map f (seq 0 num)) 0 (f O))
    by (rewrite length_map, length_seq; exact Hi).
  rewrite map_nth, seq_nth by exact Hi. reflexivity.
Qed.

Lemma length_linspace (start stop : R) (num : nat) :
  List.length (linspace start stop num) = num.
Proof. unfold linspace. now rewrite length_map, length_seq. Qed.

Lemma bins_shape :
  exists e' rest, bins = (- 0.2) :: e' :: rest /\ last bins 0 = 0.2.
Proof.
  unfold bins, linspace, size_m. simpl.
  eexists _, _; split; [f_equal; lra|reflexivity].
Qed.

Lemma bins_sorted : edges_sorted bins.
Proof. unfold bins, size_m. apply linspace_sorted. lra. Qed.

(** ** The loop body only histograms [dp] *)

Lemma combine_map {A B C D : Type} (f : A -> C) (g : B -> D) (x : list A) (y : list B) :
  combine (map f x) (map g y) = map (fun '(a, b) => (f a, g b)) (combine x y).
Proof.
  revert y; induction x as [|a x IH]; intros [|b y]; simpl; try reflexivity.
  now rewrite IH.
Qed.

Lemma hit_distribution_of_dp (h : hillas) :
  hit_distribution_of h = histogram (transverse_distances h) bins.
Proof.
  unfold hit_distribution_of, transverse_distances. cbv zeta. cbn [fst snd].
  rewrite combine_map, map_map. reflexivity.
Qed.

Lemma length_transverse_distances (h : hillas) :
  List.length (transverse_distances h) = 1600%nat.
Proof. reflexivity. Qed.

(** ** Sanity checks of the [os.path] model *)

Example basename_ex : basename "/data/run1/a.fits" = "a.fits"%string.
Proof. reflexivity. Qed.

Example splitext_ex : splitext "a.fits" = ("a", ".fits")%string.
Proof. reflexivity. Qed.

Example splitext_dotfile_ex : splitext ".fits" = (".fits", "")%string.
Proof. reflexivity. Qed.

Example splitext_two_dots_ex : splitext "run.1.fits.gz" = ("run.1.fits", ".gz")%string.
Proof. reflexivity. Qed.

Lemma bins_equal_width (i : nat) :
  (i < 30)%nat -> nth (S i) bins 0 - nth i bins 0 = 0.4 / 30.
Proof.
  intros Hi. unfold bins.
  rewrite !nth_linspace by lia. unfold size_m. simpl Nat.sub.
  assert (H30 : INR 30 = 30) by (rewrite INR_IZR_INZ; reflexivity).
  destruct (Nat.eqb_spec i 30) as [E|E]; [lia|].
  destruct (Nat.eqb_spec (S i) 30) as [E'|E'].
  - assert (Hi29 : INR i = 29) by (replace i with 29%nat by lia;
                                   rewrite INR_IZR_INZ; reflexivity).
    rewrite H30, Hi29. lra.
  - rewrite S_INR. rewrite H30. lra.
Qed.

(* ------------------------------------------------------------------ *)
(** * The claims *)

(** C1: for every input image, each histogram drawn by
    [plot_perpendicular_hit_distribution] has exactly 30 bins whose 31
    edges go from -0.2 to 0.2 in equal steps, and its counts add up to the
    number of pixels whose transverse distance lies within [[-0.2, 0.2]]
    (out-of-range pixels are not counted in any bin). *)
Theorem hit_histogram_30_bins_total_in_range
    (hillas_parameters_1 : list R -> list R -> list R -> hillas)
    (image_array : list (list R)) :
  let h := hillas_parameters_1 (flatten xx) (flatten yy) (flatten image_array) in
  List.length bins = 31%nat /\ hd 0 bins = - 0.2 /\ last bins 0 = 0.2 /\
  (forall i, (i < 30)%nat -> nth (S i) bins 0 - nth i bins 0 = 0.4 / 30) /\
  Forall (fun kv =>
      List.length (snd kv) = 30%nat /\
      list_sum (snd kv)
        = List.length (filter (in_range (- 0.2) 0.2) (transverse_distances h)) /\
      List.length (transverse_distances h) = 1600%nat)
    (plot_perpendicular_hit_distribution hillas_parameters_1 image_array).
Proof.
  intros h.
  destruct bins_shape as (e' & rest & Hb & Hlast).
  pose proof bins_sorted as Hs. rewrite Hb in Hs.
  assert (Hlen : List.length bins = 31%nat) by (apply length_linspace).
  assert (Hhist : List.length (histogram (transverse_distances h) bins) = 30%nat /\
                  list_sum (histogram (transverse_distances h) bins)
                  = List.length (filter (in_range (- 0.2) 0.2) (transverse_distances h))).
  { destruct (histogram_law (transverse_distances h) _ _ _ Hs) as [H1 H2].
    rewrite Hb. split.
    - rewrite H1. rewrite Hb in Hlen. simpl in Hlen. lia.
    - rewrite H2, (last_cons_default _ _ _ 0), <- Hb, Hlast. reflexivity. }
  split; [exact Hlen|]. split; [rewrite Hb; reflexivity|]. split; [exact Hlast|].
  split; [exact bins_equal_width|].
  unfold plot_perpendicular_hit_distribution, deepcopy. cbv beta zeta. cbn [map].
  rewrite !hit_distribution_of_dp.
  constructor; [|constructor; [|constructor]]; cbn [snd];
    (split; [apply Hhist|split; [apply Hhist|apply length_transverse_distances]]).
Qed.

(** C2 (counterexample): with centroid (0, 0), length 1 and psi = 0 the
    endpoint is p2 = (0, 1), distinct from p1, yet [T] is not
    [normalise(p2 - p1)]: the code normalises [p1 - p2]. *)
Lemma T_from_p1_to_p2_counterexample :
  let h := mk_hillas 0 0 1 1 0 in
  p2_of h <> (cen_x h, cen_y h) /\
  T_of h <> normalise (fst (p2_of h) - cen_x h, snd (p2_of h) - cen_y h).
Proof.
  unfold T_of, p2_of, normalise. cbn [cen_x cen_y length psi fst snd].
  replace (0 + PI / 2) with (PI / 2) by ring. rewrite cos_PI2, sin_PI2.
  replace ((0 - (0 + 1 * 0)) * (0 - (0 + 1 * 0)) + (0 - (0 + 1 * 1)) * (0 - (0 + 1 * 1)))
    with 1 by ring.
  replace ((0 + 1 * 0 - 0) * (0 + 1 * 0 - 0) + (0 + 1 * 1 - 0) * (0 + 1 * 1 - 0))
    with 1 by ring.
  rewrite sqrt_1. split.
  - intros H. injection H. lra.
  - intros H. injection H. lra.
Qed.

Lemma sum_sq_pos (u v : R) : (u, v) <> (0, 0) -> 0 < u * u + v * v.
Proof.
  intros Hne.
  destruct (Req_dec u 0) as [Hu|Hu].
  - destruct (Req_dec v 0) as [Hv|Hv].
    + subst. exfalso. apply Hne. reflexivity.
    + pose proof (Rsqr_pos_lt v Hv). unfold Rsqr in *. nra.
  - pose proof (Rsqr_pos_lt u Hu). unfold Rsqr in *. nra.
Qed.

(** C2 (amended): whenever p2 differs from p1, [T] is the unit vector
    pointing from the axis endpoint p2 to the centroid p1:
    [T = normalise(p1 - p2) = - normalise(p2 - p1)], and [|T| = 1]. *)
Theorem T_is_unit_from_p2_to_p1 (h : hillas) :
  p2_of h <> (cen_x h, cen_y h) ->
  T_of h = normalise (cen_x h - fst (p2_of h), cen_y h - snd (p2_of h)) /\
  T_of h = (- fst (normalise (fst (p2_of h) - cen_x h, snd (p2_of h) - cen_y h)),
            - snd (normalise (fst (p2_of h) - cen_x h, snd (p2_of h) - cen_y h))) /\
  fst (T_of h) * fst (T_of h) + snd (T_of h) * snd (T_of h) = 1.
Proof.
  intros Hne. unfold T_of. destruct (p2_of h) as [a b] eqn:E.
  cbn [fst snd]. unfold normalise. cbn [fst snd].
  assert (Hpos : 0 < (cen_x h - a) * (cen_x h - a) + (cen_y h - b) * (cen_y h - b)).
  { apply sum_sq_pos. intros Heq. injection Heq as H1 H2. apply Hne. f_equal; lra. }
  set (s := (cen_x h - a) * (cen_x h - a) + (cen_y h - b) * (cen_y h - b)) in *.
  assert (Hn : 0 < sqrt s) by (apply sqrt_lt_R0; exact Hpos).
  assert (Hss : sqrt s * sqrt s = s) by (apply sqrt_sqrt; lra).
  replace ((a - cen_x h) * (a - cen_x h) + (b - cen_y h) * (b - cen_y h)) with s
    by (unfold s; ring).
  split; [reflexivity|]. split.
  - f_equal; field; lra.
  - transitivity (((cen_x h - a) * (cen_x h - a) + (cen_y h - b) * (cen_y h - b))
                   / (sqrt s * sqrt s)); [field; lra|].
    change (s / (sqrt s * sqrt s) = 1). rewrite Hss. field. lra.
Qed.

(** C3: the axis endpoint is
    [p2 = p1 + length * (cos(psi + pi/2), sin(psi + pi/2))], that is
    [p1 + length * (- sin psi, cos psi)]: the offset is orthogonal to the
    direction [(cos psi, sin psi)], not along it. *)
Theorem p2_offset_uses_psi_plus_half_pi (h : hillas) :
  p2_of h = (cen_x h + length h * cos (psi h + PI / 2),
             cen_y h + length h * sin (psi h + PI / 2)) /\
  p2_of h = (cen_x h - length h * sin (psi h), cen_y h + length h * cos (psi h)) /\
  (fst (p2_of h) - cen_x h) * cos (psi h) + (snd (p2_of h) - cen_y h) * sin (psi h) = 0.
Proof.
  assert (Hc : cos (psi h + PI / 2) = - sin (psi h))
    by (rewrite cos_plus, cos_PI2, sin_PI2; ring).
  assert (Hs : sin (psi h + PI / 2) = cos (psi h))
    by (rewrite sin_plus, cos_PI2, sin_PI2; ring).
  unfold p2_of. rewrite Hc, Hs. cbn [fst snd].
  split; [reflexivity|]. split; [f_equal; ring|ring].
Qed.

(** C4: for each signal, the histogram drawn is the one of the transverse
    components [dp = D_x T_y - D_y T_x] with [D = p1 - (x, y)] over every
    pixel [(x, y)] of the coordinate cloud; the longitudinal component
    [dl] does not enter it. *)
Theorem histogram_depends_only_on_dp (h : hillas) :
  hit_distribution_of h =
  histogram (map (fun '(x, y) =>
                    let D := (cen_x h - x, cen_y h - y) in
                    fst D * snd (T_of h) - snd D * fst (T_of h))
                 (combine (flatten xx) (flatten yy))) bins.
Proof.
  rewrite hit_distribution_of_dp. unfold transverse_distances. reflexivity.
Qed.

(** C5: the "ref." and "cleaned" histograms are computed from deep copies
    of the one input array and are identical, for every Hillas fit and
    every input image. *)
Theorem ref_and_cleaned_histograms_identical
    (hillas_parameters_1 : list R -> list R -> list R -> hillas)
    (image_array : list (list R)) :
  let H := hit_distribution_of
             (hillas_parameters_1 (flatten xx) (flatten yy) (flatten image_array)) in
  plot_perpendicular_hit_distribution hillas_parameters_1 image_array
    = [("ref."%string, H); ("cleaned"%string, H)].
Proof. reflexivity. Qed.

(* ------------------------------------------------------------------ *)
(** ** The batch script and the GUI method *)

Section PipelineClaims.

Variable ndarray : Type.
Variable ndim : ndarray -> nat.
Variable load_benchmark_images : string -> exn + (string -> option ndarray).
Variable isdir : string -> bool.
Variable get_fits_files_list : string -> list string.
Variable astype_float64 : ndarray -> ndarray.
Variable tailcut_clean_image : ndarray -> nat -> nat -> exn + ndarray.
Variable wavelets_clean_image : ndarray -> bool -> bool -> string -> exn + ndarray.
Variable assess_image_cleaning : ndarray -> ndarray -> ndarray -> string -> exn + string.
Variable plot_image : ndarray -> string -> exn + unit.
Variable plot_ellipse_shower_on_image : ndarray -> exn + unit.
Variable plot_hit_distribution : ndarray -> string -> exn + unit.
Variable savefig : string -> exn + unit.
Variable draw_image : ndarray -> string -> exn + unit.

(** One file whose two images are 2D is plotted and saved to the current
    [output], or, when [output] is [None], to [<basename>.pdf]. *)
Lemma process_file_2d (quiet : bool) (output : option string) (p : string)
    (d : string -> option ndarray) (i r : ndarray) (log : list event) :
  load_benchmark_images p = inr d ->
  d "input_image"%string = Some i -> d "reference_image"%string = Some r ->
  ndim i = 2%nat -> ndim r = 2%nat ->
  plot_image r "Reference image" = inr tt ->
  plot_ellipse_shower_on_image r = inr tt ->
  plot_hit_distribution r "Perpendicular hit distribution" = inr tt ->
  let o := match output with
           | None => (fst (splitext (basename p)) ++ ".pdf")%string
           | Some o => o
           end in
  savefig o = inr tt ->
  process_file ndarray ndim load_benchmark_images
    plot_image plot_ellipse_shower_on_image plot_hit_distribution savefig quiet output p log =
    (inr (Some o),
     (if quiet then [] else [Show]) ++
     SaveFig o :: PlotHitDistribution "Perpendicular hit distribution" ::
     PlotEllipse :: PlotImage "Reference image" :: Subplots :: Load p :: log).
Proof.
  intros Hl Hi Hr Hni Hnr H1 H2 H3 o Hs.
  unfold process_file, call, bind, emit, lift, getitem, raise_if, ret.
  rewrite Hl, Hi, Hr, Hni, Hnr. cbn [negb Nat.eqb].
  rewrite H1, H2, H3. fold o. rewrite Hs.
  destruct quiet; reflexivity.
Qed.

(** One file whose input or reference image is not 2D raises. *)
Lemma process_file_not_2d (quiet : bool) (output : option string) (p : string)
    (d : string -> option ndarray) (i r : ndarray) (log : list event) :
  load_benchmark_images p = inr d ->
  d "input_image"%string = Some i -> d "reference_image"%string = Some r ->
  (ndim i <> 2%nat \/ ndim r <> 2%nat) ->
  process_file ndarray ndim load_benchmark_images
    plot_image plot_ellipse_shower_on_image plot_hit_distribution savefig quiet output p log =
    (inl (Exception not_2d_msg), Load p :: log).
Proof.
  intros Hl Hi Hr Hn.
  unfold process_file, bind, emit, lift, getitem, raise_if, ret, raise.
  rewrite Hl, Hi, Hr.
  destruct (Nat.eqb_spec (ndim i) 2) as [Ei|Ei]; [|reflexivity].
  destruct (Nat.eqb_spec (ndim r) 2) as [Er|Er]; [lia|reflexivity].
Qed.

Lemma saved_paths_cons (ev : event) (log : list event) :
  saved_paths (ev :: log)
    = saved_paths log ++ match ev with SaveFig p => [p] | _ => [] end.
Proof. unfold saved_paths. destruct ev; simpl; rewrite ?app_nil_r; reflexivity. Qed.

(** C6 (code_bug): a directory argument of the batch script does not get
    expanded: [main] reads the unbound name [input_directory_path] and
    raises [NameError] before processing any file. *)
Theorem main_directory_arg_raises_NameError (quiet : bool) (output : option string)
    (arg : string) (rest : list string) (log : list event) :
  isdir arg = true ->
  main ndarray ndim load_benchmark_images isdir get_fits_files_list
    plot_image plot_ellipse_shower_on_image plot_hit_distribution savefig quiet output (arg :: rest) log
    = (inl (NameError "input_directory_path"), log).
Proof.
  intros H. unfold main. cbn [main_loop]. unfold expand_arg. rewrite H. reflexivity.
Qed.

(** C7: when the input image or the reference image of a loaded file is
    not 2D, an [Exception] is raised right after loading, with nothing
    else done: in [main] (the file given directly, or anywhere in the list
    of files being processed) and in [update_plots]. *)
Theorem non_2d_image_raises (p : string) (d : string -> option ndarray) (i r : ndarray) :
  load_benchmark_images p = inr d ->
  d "input_image"%string = Some i -> d "reference_image"%string = Some r ->
  (ndim i <> 2%nat \/ ndim r <> 2%nat) ->
  (forall quiet output rest log,
     process_files ndarray ndim load_benchmark_images
    plot_image plot_ellipse_shower_on_image plot_hit_distribution savefig quiet output (p :: rest) log
       = (inl (Exception not_2d_msg), Load p :: log)) /\
  (forall quiet output rest log, isdir p = false ->
     main ndarray ndim load_benchmark_images isdir get_fits_files_list
    plot_image plot_ellipse_shower_on_image plot_hit_distribution savefig quiet output (p :: rest) log
       = (inl (Exception not_2d_msg), Load p :: log)) /\
  (forall self log, current_file_path self = Some p ->
     update_plots ndarray ndim load_benchmark_images astype_float64 tailcut_clean_image
       wavelets_clean_image assess_image_cleaning draw_image self log
       = (inl (Exception not_2d_msg), Load p :: log)).
Proof.
  intros Hl Hi Hr Hn.
  assert (Hpf : forall quiet output rest log,
     process_files ndarray ndim load_benchmark_images
    plot_image plot_ellipse_shower_on_image plot_hit_distribution savefig quiet output (p :: rest) log
       = (inl (Exception not_2d_msg), Load p :: log)).
  { intros quiet output rest log. cbn [process_files]. unfold bind at 1.
    rewrite (process_file_not_2d quiet output p d i r log Hl Hi Hr Hn). reflexivity. }
  split; [exact Hpf|split].
  - intros quiet output rest log Hd. unfold main. cbn [main_loop].
    unfold expand_arg. rewrite Hd. unfold bind at 1, ret at 1.
    unfold bind at 1. rewrite Hpf. reflexivity.
  - intros self log Hc. unfold update_plots. rewrite Hc.
    unfold bind, emit, lift, getitem, raise_if, ret, raise.
    rewrite Hl, Hi, Hr.
    destruct (Nat.eqb_spec (ndim i) 2) as [Ei|Ei]; [|reflexivity].
    destruct (Nat.eqb_spec (ndim r) 2) as [Er|Er]; [lia|reflexivity].
Qed.

(** C8: once the file is loaded and both images cleaned, an
    [AssessError] raised by the assessment of either cleaned image
    (tailcut or wavelets) is caught on its own and reported, and
    [update_plots] still ends normally: the four image plots are drawn and
    the canvas redrawn last (provided [_draw_image] itself does not raise
    on the four images, as it does on an empty or non-2D array). *)
Theorem assess_error_caught_plots_still_drawn (self : container) (p : string)
    (d : string -> option ndarray) (i r tci wci : ndarray) (rt rw : exn + string)
    (log : list event) :
  current_file_path self = Some p ->
  load_benchmark_images p = inr d ->
  d "input_image"%string = Some i -> d "reference_image"%string = Some r ->
  ndim i = 2%nat -> ndim r = 2%nat ->
  tailcut_clean_image (astype_float64 i) 10 5 = inr tci ->
  wavelets_clean_image (astype_float64 i) (kill_isolated_pixels self) true
    (wavelets_options self) = inr wci ->
  assess_image_cleaning i tci r "all" = rt ->
  assess_image_cleaning i wci r "all" = rw ->
  draw_image i "Input" = inr tt -> draw_image r "Reference" = inr tt ->
  draw_image tci "Tailcut" = inr tt -> draw_image wci "Wavelets" = inr tt ->
  (rt = inl AssessError \/ exists sc, rt = inr sc) ->
  (rw = inl AssessError \/ exists sc, rw = inr sc) ->
  (rt = inl AssessError \/ rw = inl AssessError) ->
  exists log',
    update_plots ndarray ndim load_benchmark_images astype_float64 tailcut_clean_image
      wavelets_clean_image assess_image_cleaning draw_image self log
      = (inr tt,
         [CanvasDraw; DrawImage "Wavelets"; DrawImage "Tailcut";
          DrawImage "Reference"; DrawImage "Input";
          AddSubplot 224; AddSubplot 223; AddSubplot 222; AddSubplot 221;
          CanvasDraw; Clf]%string ++ log') /\
    (rt = inl AssessError -> In (Print ["TC: "; str_AssessError]%string) log') /\
    (rw = inl AssessError -> In (Print ["WT: "; str_AssessError]%string) log').
Proof.
  intros Hc Hl Hi Hr Hni Hnr Htc Hwc Hrt Hrw D1 D2 D3 D4 Hct Hcw _.
  unfold update_plots. rewrite Hc.
  unfold clear_figure, call, try_except_assess, bind, emit, lift, getitem, raise_if, ret.
  rewrite Hl, Hi, Hr, Hni, Hnr. cbn [negb Nat.eqb].
  rewrite Htc, Hwc, Hrt, Hrw, D1, D2, D3, D4.
  destruct Hct as [->|[st ->]]; destruct Hcw as [->|[sw ->]];
    (eexists; split; [reflexivity|]);
    split; intros E; try discriminate; simpl; tauto.
Qed.

(** C9 (code_bug): without [--output], the batch script saves the first
    file's figure to [<basename>.pdf] and then every later file's figure
    to that same name: [output] is assigned inside the loop.  (For files
    whose reference image the three plotting routines accept, and a
    [savefig] that succeeds.) *)
Theorem default_output_reuses_first_basename (f1 f2 : string) (log : list event) :
  (forall p, p = f1 \/ p = f2 ->
     isdir p = false /\
     exists d i r, load_benchmark_images p = inr d /\
       d "input_image"%string = Some i /\ d "reference_image"%string = Some r /\
       ndim i = 2%nat /\ ndim r = 2%nat /\
       plot_image r "Reference image" = inr tt /\
       plot_ellipse_shower_on_image r = inr tt /\
       plot_hit_distribution r "Perpendicular hit distribution" = inr tt) ->
  savefig (fst (splitext (basename f1)) ++ ".pdf")%string = inr tt ->
  let out1 := (fst (splitext (basename f1)) ++ ".pdf")%string in
  fst (main ndarray ndim load_benchmark_images isdir get_fits_files_list
    plot_image plot_ellipse_shower_on_image plot_hit_distribution savefig true None [f1; f2] log)
    = inr tt /\
  saved_paths (snd (main ndarray ndim load_benchmark_images isdir get_fits_files_list
    plot_image plot_ellipse_shower_on_image plot_hit_distribution savefig
                         true None [f1; f2] log))
    = saved_paths log ++ [out1; out1].
Proof.
  intros H Hs out1.
  destruct (H f1 (or_introl eq_refl))
    as (D1 & d1 & i1 & r1 & L1 & I1 & R1 & N1 & M1 & P1 & E1 & G1).
  destruct (H f2 (or_intror eq_refl))
    as (D2 & d2 & i2 & r2 & L2 & I2 & R2 & N2 & M2 & P2 & E2 & G2).
  unfold main. cbv beta iota zeta delta [main_loop expand_arg process_files bind ret].
  rewrite D1, D2.
  rewrite (process_file_2d true None f1 d1 i1 r1 log L1 I1 R1 N1 M1 P1 E1 G1 Hs).
  cbv beta iota zeta delta [app].
  rewrite (process_file_2d true (Some out1) f2 d2 i2 r2 _ L2 I2 R2 N2 M2 P2 E2 G2 Hs).
  cbv beta iota zeta delta [app fst snd]. split; [reflexivity|].
  rewrite !saved_paths_cons. cbn -[saved_paths]. rewrite <- !app_assoc. reflexivity.
Qed.

(** C10: with no file selected, [update_plots] returns normally and
    leaves every effect untouched: nothing is loaded, cleaned, assessed,
    printed or drawn. *)
Theorem update_plots_no_file_is_noop (self : container) (log : list event) :
  current_file_path self = None ->
  update_plots ndarray ndim load_benchmark_images astype_float64 tailcut_clean_image
    wavelets_clean_image assess_image_cleaning draw_image self log = (inr tt, log).
Proof. intros H. unfold update_plots. rewrite H. reflexivity. Qed.


End PipelineClaims.

(* ------------------------------------------------------------------ *)
(** ** Witnesses: the theorems applied at concrete inputs *)

(** C2: centroid (0, 0), length 1, psi = 0. *)
Lemma T_is_unit_from_p2_to_p1_witness :
  p2_of (mk_hillas 0 0 1 1 0) <> (0, 0) /\
  fst (T_of (mk_hillas 0 0 1 1 0)) * fst (T_of (mk_hillas 0 0 1 1 0)) +
  snd (T_of (mk_hillas 0 0 1 1 0)) * snd (T_of (mk_hillas 0 0 1 1 0)) = 1.
Proof.
  assert (H : p2_of (mk_hillas 0 0 1 1 0)
              <> (cen_x (mk_hillas 0 0 1 1 0), cen_y (mk_hillas 0 0 1 1 0))).
  { unfold p2_of. cbn [cen_x cen_y length psi].
    replace (0 + PI / 2) with (PI / 2) by ring. rewrite cos_PI2, sin_PI2.
    intros E. injection E. lra. }
  split; [exact H|].
  exact (proj2 (proj2 (T_is_unit_from_p2_to_p1 (mk_hillas 0 0 1 1 0) H))).
Defined.

(** C6: the directory "fits_dir". *)
Lemma main_directory_arg_raises_NameError_witness :
  (fun _ : string => true) "fits_dir"%string = true /\
  main nat (fun n => n) (fun _ => inr (fun _ => None)) (fun _ => true) (fun _ => [])
    (fun _ _ => inr tt) (fun _ => inr tt) (fun _ _ => inr tt) (fun _ => inr tt) false None ["fits_dir"%string] []
    = (inl (NameError "input_directory_path"), []).
Proof.
  split; [reflexivity|].
  apply (main_directory_arg_raises_NameError nat (fun n => n) (fun _ => inr (fun _ => None))
           (fun _ => true) (fun _ => []) (fun _ _ => inr tt) (fun _ => inr tt) (fun _ _ => inr tt) (fun _ => inr tt)
           false None "fits_dir" [] []).
  reflexivity.
Defined.

(** C7: a file whose input image is 1D. *)
Lemma non_2d_image_raises_witness :
  main nat (fun n => n)
    (fun _ => inr (fun k => if String.eqb k "input_image" then Some 1%nat else Some 2%nat))
    (fun _ => false) (fun _ => []) (fun _ _ => inr tt) (fun _ => inr tt) (fun _ _ => inr tt) (fun _ => inr tt) false None ["bad.fits"%string] []
    = (inl (Exception not_2d_msg), [Load "bad.fits"]).
Proof.
  apply (proj1 (proj2 (non_2d_image_raises nat (fun n => n)
    (fun _ => inr (fun k => if String.eqb k "input_image" then Some 1%nat else Some 2%nat))
    (fun _ => false) (fun _ => []) (fun n => n) (fun n _ _ => inr n) (fun n _ _ _ => inr n)
    (fun _ _ _ _ => inr "scores"%string) (fun _ _ => inr tt) (fun _ => inr tt) (fun _ _ => inr tt) (fun _ => inr tt) (fun _ _ => inr tt) "bad.fits"
    (fun k => if String.eqb k "input_image" then Some 1%nat else Some 2%nat) 1%nat 2%nat
    eq_refl eq_refl eq_refl (or_introl (n_Sn 1%nat))))).
  reflexivity.
Defined.

(** C8: both assessments raise [AssessError]. *)
Lemma assess_error_caught_plots_still_drawn_witness :
  exists log',
    update_plots nat (fun n => n) (fun _ => inr (fun _ => Some 2%nat)) (fun n => n)
      (fun n _ _ => inr n) (fun n _ _ _ => inr n) (fun _ _ _ _ => inl AssessError) (fun _ _ => inr tt)
      (mk_container "dir" (Some "a.fits"%string) false "-K -k -C1 -m3 -s3 -n4") []
      = (inr tt,
         [CanvasDraw; DrawImage "Wavelets"; DrawImage "Tailcut";
          DrawImage "Reference"; DrawImage "Input";
          AddSubplot 224; AddSubplot 223; AddSubplot 222; AddSubplot 221;
          CanvasDraw; Clf]%string ++ log') /\
    (inl AssessError = @inl exn string AssessError ->
       In (Print ["TC: "; str_AssessError]%string) log') /\
    (inl AssessError = @inl exn string AssessError ->
       In (Print ["WT: "; str_AssessError]%string) log').
Proof.
  exact (assess_error_caught_plots_still_drawn nat (fun n => n)
    (fun _ => inr (fun _ => Some 2%nat)) (fun _ => false) (fun _ => []) (fun n => n)
    (fun n _ _ => inr n) (fun n _ _ _ => inr n) (fun _ _ _ _ => inl AssessError) 
    (fun _ _ => inr tt) (fun _ => inr tt) (fun _ _ => inr tt) (fun _ => inr tt) (fun _ _ => inr tt)
    (mk_container "dir" (Some "a.fits"%string) false "-K -k -C1 -m3 -s3 -n4") "a.fits"%string
    (fun _ => Some 2%nat) 2%nat 2%nat 2%nat 2%nat (inl AssessError) (inl AssessError) []
    eq_refl eq_refl eq_refl eq_refl eq_refl eq_refl eq_refl eq_refl eq_refl eq_refl
    eq_refl eq_refl eq_refl eq_refl
    (or_introl eq_refl) (or_introl eq_refl) (or_introl eq_refl)).
Defined.

(** C9: the files "a.fits" and "b.fits" without [--output]: both figures
    are saved to "a.pdf". *)
Lemma default_output_reuses_first_basename_witness :
  saved_paths (snd (main nat (fun n => n) (fun _ => inr (fun _ => Some 2%nat))
                         (fun _ => false) (fun _ => []) (fun _ _ => inr tt) (fun _ => inr tt) (fun _ _ => inr tt) (fun _ => inr tt) true None
                         ["a.fits"; "b.fits"]%string []))
    = ["a.pdf"; "a.pdf"]%string.
Proof.
  destruct (default_output_reuses_first_basename nat (fun n => n)
              (fun _ => inr (fun _ => Some 2%nat)) (fun _ => false) (fun _ => [])
              (fun _ _ => inr tt) (fun _ => inr tt) (fun _ _ => inr tt) (fun _ => inr tt) "a.fits" "b.fits" []) as [_ H].
  - intros p _. split; [reflexivity|].
    exists (fun _ => Some 2%nat), 2%nat, 2%nat. repeat split.
  - reflexivity.
  - rewrite H. reflexivity.
Defined.

(** C10: a container with no selected file. *)
Lemma update_plots_no_file_is_noop_witness :
  update_plots nat (fun n => n) (fun _ => inr (fun _ => Some 2%nat)) (fun n => n)
    (fun n _ _ => inr n) (fun n _ _ _ => inr n) (fun _ _ _ _ => inl AssessError) (fun _ _ => inr tt)
    (mk_container "dir" None false "-K -k -C1 -m3 -s3 -n4") []
    = (inr tt, []).
Proof.
  apply (update_plots_no_file_is_noop nat (fun n => n) (fun _ => inr (fun _ => Some 2%nat))
           (fun n => n) (fun n _ _ => inr n) (fun n _ _ _ => inr n)
           (fun _ _ _ _ => inl AssessError) (fun _ _ => inr tt)
           (mk_container "dir" None false "-K -k -C1 -m3 -s3 -n4") []).
  reflexivity.
Defined.

(* ------------------------------------------------------------------ *)
(** * Further properties of the code *)

(** ** np.histogram bin by bin *)

Lemma nth_diff (l : list nat) (i : nat) :
  (S i < List.length l)%nat -> nth i (diff l) O = (nth (S i) l O - nth i l O)%nat.
Proof.
  revert i; induction l as [|x l IH]; intros i Hi; simpl in Hi; [lia|].
  destruct l as [|y l]; simpl in Hi; [lia|].
  destruct i as [|i]; [reflexivity|].
  change (diff (x :: y :: l)) with ((y - x)%nat :: diff (y :: l)).
  simpl nth at 1. rewrite IH by (simpl; lia). reflexivity.
Qed.

Lemma nth_search_sorted_inclusive (a edges : list R) (i : nat) :
  (i < List.length edges)%nat ->
  nth i (search_sorted_inclusive a edges) O
    = if Nat.eqb (S i) (List.length edges) then count_le (nth i edges 0) a
      else count_lt (nth i edges 0) a.
Proof.
  revert i; induction edges as [|e rest IH]; intros i Hi; simpl in Hi; [lia|].
  destruct rest as [|e' r].
  - destruct i; [reflexivity|simpl in Hi; lia].
  - change (search_sorted_inclusive a (e :: e' :: r))
      with (count_lt e a :: search_sorted_inclusive a (e' :: r)).
    destruct i as [|i]; [reflexivity|].
    simpl nth. rewrite IH by (simpl in *; lia). reflexivity.
Qed.

Lemma count_lt_split (a : list R) (lo hi : R) :
  lo <= hi ->
  count_lt hi a = (count_lt lo a + List.length (filter (in_bin lo hi) a))%nat.
Proof.
  intros He; unfold count_lt, in_bin; induction a as [|v a IH]; simpl; [lia|].
  destruct (Rlt_dec v hi), (Rlt_dec v lo), (Rle_dec lo v); simpl; try lia; lra.
Qed.

Lemma nth_histogram (a edges : list R) (i : nat) :
  (S i < List.length edges)%nat -> nth i edges 0 <= nth (S i) edges 0 ->
  nth i (histogram a edges) O
    = if Nat.eqb (S (S i)) (List.length edges)
      then List.length (filter (in_range (nth i edges 0) (nth (S i) edges 0)) a)
      else List.length (filter (in_bin (nth i edges 0) (nth (S i) edges 0)) a).
Proof.
  intros Hi Hle. unfold histogram.
  rewrite nth_diff by (rewrite length_search_sorted_inclusive; exact Hi).
  rewrite !nth_search_sorted_inclusive by lia.
  destruct (Nat.eqb_spec (S i) (List.length edges)) as [E|E]; [lia|].
  destruct (Nat.eqb_spec (S (S i)) (List.length edges)) as [E'|E'].
  - rewrite (count_le_split a _ _ Hle). lia.
  - rewrite (count_lt_split a _ _ Hle). lia.
Qed.

(** X1: in the histogram drawn for a signal, bin i (i < 29) counts the
    pixels whose [dp] lies in the half-open interval [[b_i, b_(i+1))]
    between consecutive edges, and the last bin counts those in the closed
    interval [[b_29, b_30]]. *)
Theorem hit_histogram_bin_counts (h : hillas) :
  (forall i, (i < 29)%nat ->
     nth i (hit_distribution_of h) O
     = List.length (filter (in_bin (nth i bins 0) (nth (S i) bins 0))
                           (transverse_distances h))) /\
  nth 29 (hit_distribution_of h) O
    = List.length (filter (in_range (nth 29 bins 0) (nth 30 bins 0))
                          (transverse_distances h)).
Proof.
  assert (Hlen : List.length bins = 31%nat) by apply length_linspace.
  assert (Hle : forall i, (i < 30)%nat -> nth i bins 0 <= nth (S i) bins 0).
  { intros i Hi. pose proof (bins_equal_width i Hi). lra. }
  rewrite hit_distribution_of_dp. split.
  - intros i Hi. rewrite nth_histogram by (try rewrite Hlen; try apply Hle; lia).
    rewrite Hlen. destruct (Nat.eqb_spec (S (S i)) 31); [lia|reflexivity].
  - rewrite nth_histogram by (try rewrite Hlen; try apply Hle; lia).
    rewrite Hlen. reflexivity.
Qed.

(** ** np.meshgrid and flatten *)

Lemma length_concat_blocks {A : Type} (L : list (list A)) (n : nat) :
  Forall (fun l => List.length l = n) L -> List.length (concat L) = (List.length L * n)%nat.
Proof.
  induction 1 as [|l L Hl _ IH]; [reflexivity|].
  simpl. rewrite length_app, Hl, IH. lia.
Qed.

Lemma nth_concat_blocks {A : Type} (L : list (list A)) (n i j : nat) (d : A) :
  Forall (fun l => List.length l = n) L -> (i < List.length L)%nat -> (j < n)%nat ->
  nth (i * n + j) (concat L) d = nth j (nth i L []) d.
Proof.
  intros HF. revert i; induction HF as [|l L Hl HF IH]; intros i Hi Hj; simpl in Hi; [lia|].
  simpl concat. destruct i as [|i].
  - simpl. rewrite app_nth1 by lia. reflexivity.
  - rewrite app_nth2 by (simpl; nia).
    replace (S i * n + j - List.length l)%nat with (i * n + j)%nat by (simpl; nia).
    rewrite IH by lia. reflexivity.
Qed.

Lemma nth_map_lt {A B : Type} (f : A -> B) (l : list A) (n : nat) (d' : B) (d : A) :
  (n < List.length l)%nat -> nth n (map f l) d' = f (nth n l d).
Proof.
  revert n; induction l as [|a l IH]; intros n Hn; simpl in Hn; [lia|].
  destruct n; simpl; [reflexivity|apply IH; lia].
Qed.

Lemma meshgrid_nth (x y : list R) (i j : nat) :
  (i < List.length y)%nat -> (j < List.length x)%nat ->
  nth (i * List.length x + j)
      (combine (flatten (fst (meshgrid x y))) (flatten (snd (meshgrid x y)))) (0, 0)
  = (nth j x 0, nth i y 0).
Proof.
  intros Hi Hj. unfold meshgrid, flatten; cbn [fst snd].
  assert (HF1 : Forall (fun l => List.length l = List.length x) (map (fun _ => x) y)).
  { apply Forall_map, Forall_forall. reflexivity. }
  assert (HF2 : Forall (fun l => List.length l = List.length x)
                  (map (fun yi => map (fun _ => yi) x) y)).
  { apply Forall_map, Forall_forall. intros. apply length_map. }
  rewrite combine_nth
    by (rewrite (length_concat_blocks _ _ HF1), (length_concat_blocks _ _ HF2), ?length_map;
        reflexivity).
  rewrite (nth_concat_blocks _ _ _ _ _ HF1) by (rewrite ?length_map; lia).
  rewrite (nth_concat_blocks _ _ _ _ _ HF2) by (rewrite ?length_map; lia).
  rewrite (nth_map_lt _ _ _ _ 0) by lia.
  rewrite (nth_map_lt _ _ _ _ 0) by lia.
  rewrite (nth_map_lt _ _ _ _ 0) by lia. reflexivity.
Qed.

(** X2: in [plot_perpendicular_hit_distribution], point [40 i + j] of the
    coordinate cloud (the pixel at row i, column j of a flattened 40 x 40
    image) is at [x = -0.142555996776 + j p], [y = -0.142555996776 + i p],
    with the pitch [p = 0.285111993552 / 39] metres. *)
Theorem hit_cloud_pixel_position (i j : nat) :
  (i < 40)%nat -> (j < 40)%nat ->
  nth (i * 40 + j) (combine (flatten xx) (flatten yy)) (0, 0)
  = (-0.142555996776 + INR j * (0.285111993552 / 39),
     -0.142555996776 + INR i * (0.285111993552 / 39)).
Proof.
  intros Hi Hj.
  assert (Hl : List.length grid_x = 40%nat) by apply length_linspace.
  assert (Hl' : List.length grid_y = 40%nat) by apply length_linspace.
  unfold xx, yy. rewrite <- Hl at 1.
  rewrite meshgrid_nth by lia.
  assert (H39 : INR 39 = 39) by (rewrite INR_IZR_INZ; reflexivity).
  assert (Hg : forall k, (k < 40)%nat ->
     nth k (linspace (-0.142555996776) 0.142555996776 40) 0
     = -0.142555996776 + INR k * (0.285111993552 / 39)).
  { intros k Hk. rewrite nth_linspace by exact Hk. simpl Nat.sub.
    destruct (Nat.eqb_spec k 39) as [->|E].
    - rewrite H39. lra.
    - rewrite H39. lra. }
  unfold grid_x, grid_y, num_pixels_x, num_pixels_y.
  rewrite !Hg by lia. reflexivity.
Qed.

(** X3: in [plot_ellipse_shower_on_image], for an image of r rows of c
    pixels, pixel (i, j), at index [k = i c + j] of [image_array.flatten()],
    is given the coordinates [x = k mod r], [y = k / r]: the x grid is
    built from the number of rows.  For a square image this is
    [(x, y) = (j, i)]. *)
Theorem ellipse_cloud_coordinates (image_array : list (list R)) (r c i j : nat) :
  List.length image_array = r ->
  Forall (fun row => List.length row = c) image_array ->
  (i < r)%nat -> (j < c)%nat ->
  let '(xs, ys, ws) := ellipse_cloud image_array in
  nth (i * c + j) ws 0 = nth j (nth i image_array []) 0 /\
  nth (i * c + j) xs 0 = INR ((i * c + j) mod r) /\
  nth (i * c + j) ys 0 = INR ((i * c + j) / r) /\
  (r = c -> nth (i * c + j) xs 0 = INR j /\ nth (i * c + j) ys 0 = INR i).
Proof.
  intros Hr HF Hi Hj.
  assert (Hc : List.length (hd [] image_array) = c).
  { destruct image_array as [|row rows]; simpl in Hr; [lia|].
    inversion HF; assumption. }
  unfold ellipse_cloud. rewrite Hr, Hc.
  set (k := (i * c + j)%nat).
  assert (Hk : (k < r * c)%nat) by (unfold k; nia).
  assert (Hr0 : (r <> 0)%nat) by lia.
  assert (Hdm : k = (k / r * r + k mod r)%nat)
    by (pose proof (Nat.div_mod_eq k r); lia).
  assert (Hmod : (k mod r < r)%nat) by (apply Nat.mod_upper_bound; lia).
  assert (Hdiv : (k / r < c)%nat) by (apply Nat.Div0.div_lt_upper_bound; lia).
  assert (Hlx : List.length (arange r) = r) by (unfold arange; rewrite length_map, length_seq; reflexivity).
  assert (Hly : List.length (arange c) = c) by (unfold arange; rewrite length_map, length_seq; reflexivity).
  assert (Har : forall n m, (m < n)%nat -> nth m (arange n) 0 = INR m).
  { intros n m Hm. unfold arange.
    rewrite (nth_map_lt _ _ _ _ O) by (rewrite length_seq; lia).
    rewrite seq_nth by lia. reflexivity. }
  pose proof (meshgrid_nth (arange r) (arange c) (k / r) (k mod r)) as HM.
  rewrite Hlx, Hly in HM. specialize (HM Hdiv Hmod).
  rewrite <- Hdm in HM.
  rewrite combine_nth in HM.
  2:{ unfold meshgrid, flatten; cbn [fst snd].
      rewrite (length_concat_blocks _ r), (length_concat_blocks _ r), !length_map;
        [reflexivity| |].
      - apply Forall_map, Forall_forall. intros. rewrite length_map. exact Hlx.
      - apply Forall_map, Forall_forall. intros. exact Hlx. }
  injection HM as HX HY.
  rewrite Har in HX, HY by assumption.
  cbv zeta. unfold meshgrid at 1.
  split; [|split; [exact HX|split; [exact HY|]]].
  - unfold k, flatten. apply nth_concat_blocks; [exact HF|lia|exact Hj].
  - intros E. rewrite HX, HY. unfold k.
    rewrite <- (Nat.mod_unique (i * c + j) r i j) by lia.
    rewrite <- (Nat.div_unique (i * c + j) r i j) by lia.
    split; reflexivity.
Qed.

(** ** The direction [T] and the transverse distances [dp] *)

(** With [s = length / |length|] the sign of the fitted length,
    [T = s (sin psi, - cos psi)]. *)
Lemma T_of_sign (h : hillas) :
  length h <> 0 ->
  T_of h = (length h / Rabs (length h) * sin (psi h),
            - (length h / Rabs (length h)) * cos (psi h)).
Proof.
  intros HL. unfold T_of, p2_of, normalise. cbn [fst snd].
  rewrite cos_plus, sin_plus, cos_PI2, sin_PI2.
  match goal with
  | |- context [sqrt ?a] =>
      replace a with (Rsqr (length h))
        by (unfold Rsqr;
            transitivity (length h * length h * (Rsqr (sin (psi h)) + Rsqr (cos (psi h))));
            [rewrite sin2_cos2; ring|unfold Rsqr; ring])
  end.
  rewrite sqrt_Rsqr_abs.
  assert (Ha : Rabs (length h) <> 0) by (apply Rabs_no_R0; exact HL).
  f_equal; field; exact Ha.
Qed.

Lemma combine_map_self {A B : Type} (f : A -> B) (l : list A) :
  combine (map f l) l = map (fun p => (f p, p)) l.
Proof. induction l as [|a l IH]; simpl; [reflexivity|now rewrite IH]. Qed.

(** X4: for a fit with a positive length, the value [dp] histogrammed for
    the pixel at [(x, y)] is [(x - cen_x) cos psi + (y - cen_y) sin psi]:
    the signed offset from the centroid along the direction of angle
    [psi], not across it. *)
Theorem transverse_distance_along_psi (h : hillas) :
  0 < length h ->
  transverse_distances h
  = map (fun '(x, y) => (x - cen_x h) * cos (psi h) + (y - cen_y h) * sin (psi h))
        (combine (flatten xx) (flatten yy)).
Proof.
  intros HL. unfold transverse_distances. rewrite T_of_sign by lra.
  rewrite Rabs_right by lra. apply map_ext. intros [x y]. cbn [fst snd].
  field. lra.
Qed.

(** X5: for a fit with a non-zero length, every [dp] is at most, in
    absolute value, the distance from the centroid to its pixel. *)
Theorem transverse_distance_bounded (h : hillas) :
  length h <> 0 ->
  Forall (fun '(d, (x, y)) =>
            d * d <= (cen_x h - x) * (cen_x h - x) + (cen_y h - y) * (cen_y h - y))
         (combine (transverse_distances h) (combine (flatten xx) (flatten yy))).
Proof.
  intros HL. unfold transverse_distances. rewrite combine_map_self.
  apply Forall_map, Forall_forall. intros [x y] _.
  rewrite T_of_sign by exact HL. cbn [fst snd].
  set (s := length h / Rabs (length h)).
  assert (Hs : s * s = 1).
  { unfold s. destruct (Rcase_abs (length h)) as [Hn|Hp];
      [rewrite Rabs_left by exact Hn | rewrite Rabs_right by exact Hp]; field; lra. }
  set (a := cen_x h - x). set (b := cen_y h - y).
  set (c := cos (psi h)). set (si := sin (psi h)).
  assert (Hcs : si * si + c * c = 1)
    by (pose proof (sin2_cos2 (psi h)) as E; unfold Rsqr in E; exact E).
  assert (E1 : (a * (- s * c) - b * (s * si)) * (a * (- s * c) - b * (s * si))
               = (a * c + b * si) * (a * c + b * si))
    by (transitivity (s * s * ((a * c + b * si) * (a * c + b * si))); [ring|rewrite Hs; ring]).
  assert (E2 : a * a + b * b - (a * c + b * si) * (a * c + b * si)
               = (a * si - b * c) * (a * si - b * c)
                 + (a * a + b * b) * (1 - (si * si + c * c)))
    by ring.
  rewrite Hcs in E2.
  pose proof (Rle_0_sqr (a * si - b * c)) as P. unfold Rsqr in P.
  rewrite E1. nra.
Qed.

(** ** os.path *)

Lemma contains_char_app (c : ascii) (a b : string) :
  contains_char c (a ++ b) = contains_char c a || contains_char c b.
Proof. induction a as [|c' a IH]; simpl; [reflexivity|rewrite IH; apply orb_assoc]. Qed.

Lemma append_empty_r (s : string) : (s ++ "")%string = s.
Proof. induction s as [|c s IH]; simpl; [reflexivity|now rewrite IH]. Qed.

Lemma string_app_assoc (a b c : string) : ((a ++ b) ++ c)%string = (a ++ (b ++ c))%string.
Proof. induction a as [|x a IH]; simpl; [reflexivity|now rewrite IH]. Qed.

Lemma rfind_dot_aux_spec (p : string) : forall i best,
  (contains_char "." p = false /\ rfind_dot_aux p i best = best) \/
  (exists a b, p = (a ++ String "." b)%string /\ contains_char "." b = false /\
               rfind_dot_aux p i best = Some (i + String.length a)%nat).
Proof.
  induction p as [|c r IH]; intros i best; [left; split; reflexivity|].
  cbn [rfind_dot_aux contains_char].
  destruct (IH (S i) (if Ascii.eqb c "." then Some i else best))
    as [[Hn Hr]|(a & b & -> & Hb & Hr)].
  - rewrite Hr, Hn. destruct (Ascii.eqb_spec c ".") as [->|E].
    + right. exists EmptyString, r. split; [reflexivity|]. split; [exact Hn|].
      simpl. f_equal. lia.
    + left. split; reflexivity.
  - right. exists (String c a), b. split; [reflexivity|]. split; [exact Hb|].
    rewrite Hr. simpl. f_equal. lia.
Qed.

Lemma substring_prefix (a s : string) :
  substring 0 (String.length a) (a ++ s) = a.
Proof. induction a as [|c a IH]; simpl; [destruct s; reflexivity|now rewrite IH]. Qed.

Lemma substring_full (s : string) : substring 0 (String.length s) s = s.
Proof. induction s as [|c s IH]; simpl; [reflexivity|now rewrite IH]. Qed.

Lemma substring_suffix (a s : string) :
  substring (String.length a) (String.length (a ++ s) - String.length a) (a ++ s) = s.
Proof.
  induction a as [|c a IH]; simpl.
  - rewrite Nat.sub_0_r. apply substring_full.
  - exact IH.
Qed.

(** X6: [os.path.splitext] as used by [main]: root and extension
    concatenate back to the name, and the extension is empty or a dot
    followed by a dot-free rest. *)
Theorem splitext_root_ext (p : string) :
  (fst (splitext p) ++ snd (splitext p))%string = p /\
  (snd (splitext p) = EmptyString \/
   exists r, snd (splitext p) = String "." r /\ contains_char "." r = false).
Proof.
  unfold splitext, rfind_dot.
  destruct (rfind_dot_aux_spec p 0 None) as [[_ ->]|(a & b & Hp & Hb & ->)].
  - split; [apply append_empty_r|left; reflexivity].
  - simpl Nat.add. rewrite Hp, substring_prefix.
    destruct (has_non_dot a).
    + rewrite substring_suffix. split; [reflexivity|right; exists b; split; [reflexivity|exact Hb]].
    + split; [apply append_empty_r|left; reflexivity].
Qed.

Lemma basename_acc_no_slash (p acc : string) :
  contains_char "/" acc = false -> contains_char "/" (basename_acc p acc) = false.
Proof.
  revert acc; induction p as [|c r IH]; intros acc Ha; simpl; [exact Ha|].
  destruct (Ascii.eqb_spec c "/") as [->|E].
  - apply IH. reflexivity.
  - apply IH. rewrite contains_char_app, Ha. simpl.
    destruct (Ascii.eqb_spec c "/"); [contradiction|reflexivity].
Qed.

Lemma substring_no_char (c : ascii) (s : string) : forall n m,
  contains_char c s = false -> contains_char c (substring n m s) = false.
Proof.
  induction s as [|c' s IH]; intros n m H.
  - destruct n, m; reflexivity.
  - simpl in H. apply orb_false_iff in H as [H1 H2].
    destruct n as [|n]; [destruct m as [|m]|]; simpl; [reflexivity| |].
    + rewrite H1. apply IH, H2.
    + apply IH, H2.
Qed.

(** X7: the default figure name [main] builds from an input path contains
    no ['/']: without [--output] the figure is written to the working
    directory, whatever directory the input file is in. *)
Theorem default_output_in_working_dir (p : string) :
  contains_char "/" (default_output p) = false.
Proof.
  unfold default_output. rewrite contains_char_app.
  assert (Hb : contains_char "/" (basename p) = false)
    by (apply basename_acc_no_slash; reflexivity).
  unfold splitext. destruct (rfind_dot (basename p)) as [k|]; [|simpl; rewrite Hb; reflexivity].
  destruct (has_non_dot (substring 0 k (basename p))); simpl fst;
    [rewrite substring_no_char by exact Hb|rewrite Hb]; reflexivity.
Qed.

Lemma basename_acc_after_slash (a b acc : string) :
  basename_acc (a ++ String "/" b) acc = basename_acc b EmptyString.
Proof.
  revert acc; induction a as [|c a IH]; intros acc; simpl; [reflexivity|].
  destruct (Ascii.eqb c "/"); apply IH.
Qed.

Lemma ends_with_slash_split (a : string) :
  ends_with_slash a = true -> exists a', a = (a' ++ "/")%string.
Proof.
  induction a as [|c r IH]; intros H; [discriminate|].
  destruct r as [|c' r'].
  - simpl in H. apply Ascii.eqb_eq in H. subst. exists EmptyString. reflexivity.
  - destruct (IH H) as [a' E]. exists (String c a'). rewrite E. reflexivity.
Qed.

Lemma basename_os_path_join (dir file_name : string) :
  basename (os_path_join dir file_name) = basename file_name.
Proof.
  unfold os_path_join.
  destruct (starts_with_slash file_name); [reflexivity|].
  destruct (String.eqb_spec dir EmptyString) as [->|E]; [reflexivity|].
  destruct (ends_with_slash dir) eqn:Es; simpl orb.
  - destruct (ends_with_slash_split dir Es) as [a' ->].
    unfold basename. rewrite string_app_assoc. apply basename_acc_after_slash.
  - unfold basename. apply basename_acc_after_slash.
Qed.

(** ** Colour ranges *)

Lemma fold_Rmin_spec (l : list R) : forall v,
  (forall x, In x (v :: l) -> fold_left Rmin l v <= x) /\ In (fold_left Rmin l v) (v :: l).
Proof.
  induction l as [|a l IH]; intros v; simpl.
  - split; [intros x [<-|[]]; lra|left; reflexivity].
  - destruct (IH (Rmin v a)) as [H1 H2]. split.
    + intros x [<-|[<-|Hx]].
      * eapply Rle_trans; [apply H1; left; reflexivity|apply Rmin_l].
      * eapply Rle_trans; [apply H1; left; reflexivity|apply Rmin_r].
      * apply H1; right; exact Hx.
    + destruct H2 as [E|H2]; [|right; right; exact H2].
      rewrite <- E. unfold Rmin. destruct (Rle_dec v a); [left|right; left]; reflexivity.
Qed.

Lemma fold_Rmax_spec (l : list R) : forall v,
  (forall x, In x (v :: l) -> x <= fold_left Rmax l v) /\ In (fold_left Rmax l v) (v :: l).
Proof.
  induction l as [|a l IH]; intros v; simpl.
  - split; [intros x [<-|[]]; lra|left; reflexivity].
  - destruct (IH (Rmax v a)) as [H1 H2]. split.
    + intros x [<-|[<-|Hx]].
      * eapply Rle_trans; [apply Rmax_l|apply H1; left; reflexivity].
      * eapply Rle_trans; [apply Rmax_r|apply H1; left; reflexivity].
      * apply H1; right; exact Hx.
    + destruct H2 as [E|H2]; [|right; right; exact H2].
      rewrite <- E. unfold Rmax. destruct (Rle_dec v a); [right; left|left]; reflexivity.
Qed.

(** X8: a colour range computed from a non-empty image by [_draw_image]
    spans exactly the pixel values: every pixel lies in it and both ends
    are pixel values; [plot_image] uses the same range on a linear scale,
    and [0.01] to the image maximum on a log scale. *)
Theorem image_colour_range (image_array : list (list R)) (lo hi : R) :
  draw_image_norm image_array = Some (Linear lo hi) ->
  (forall v, In v (flatten image_array) -> lo <= v <= hi) /\
  In lo (flatten image_array) /\ In hi (flatten image_array) /\
  plot_image_norm image_array false = Some (Linear lo hi) /\
  plot_image_norm image_array true = Some (LogNorm 0.01 hi).
Proof.
  unfold draw_image_norm, plot_image_norm, arr_min, arr_max.
  destruct (flatten image_array) as [|v l]; [discriminate|].
  intros H. injection H as <- <-.
  destruct (fold_Rmin_spec l v) as [Hm1 Hm2], (fold_Rmax_spec l v) as [HM1 HM2].
  split; [intros x Hx; split; [apply Hm1|apply HM1]; exact Hx|].
  split; [exact Hm2|]. split; [exact HM2|]. split; reflexivity.
Qed.

(** ** The batch script and the GUI *)

Lemma loaded_paths_app (l1 l2 : list event) :
  loaded_paths (l1 ++ l2) = loaded_paths l2 ++ loaded_paths l1.
Proof. unfold loaded_paths. rewrite flat_map_app, rev_app_distr. reflexivity. Qed.

Lemma saved_paths_app (l1 l2 : list event) :
  saved_paths (l1 ++ l2) = saved_paths l2 ++ saved_paths l1.
Proof. unfold saved_paths. rewrite flat_map_app, rev_app_distr. reflexivity. Qed.

Lemma show_count_app (l1 l2 : list event) :
  show_count (l1 ++ l2) = (show_count l1 + show_count l2)%nat.
Proof. unfold show_count. rewrite filter_app, length_app. reflexivity. Qed.

Lemma extends_ret {A : Type} (a : A) : extends (ret a).
Proof. intros s. exists []. reflexivity. Qed.

Lemma extends_raise {A : Type} (e : exn) : extends (@raise A e).
Proof. intros s. exists []. reflexivity. Qed.

Lemma extends_emit (ev : event) : extends (emit ev).
Proof. intros s. exists [ev]. reflexivity. Qed.

Lemma extends_lift {A : Type} (r : exn + A) : extends (lift r).
Proof. intros s. exists []. reflexivity. Qed.

Lemma extends_bind {A B : Type} (m : M A) (k : A -> M B) :
  extends m -> (forall a, extends (k a)) -> extends (bind m k).
Proof.
  intros Hm Hk s. unfold bind. destruct (Hm s) as [evs1 E1].
  destruct (m s) as [[e|a] s1]; cbn [snd] in E1; subst s1.
  - exists evs1. reflexivity.
  - destruct (Hk a (evs1 ++ s)) as [evs2 E2]. exists (evs2 ++ evs1).
    rewrite E2, app_assoc. reflexivity.
Qed.

Lemma extends_try (body handler : M unit) :
  extends body -> extends handler -> extends (try_except_assess body handler).
Proof.
  intros Hb Hh s. unfold try_except_assess. destruct (Hb s) as [evs1 E1].
  destruct (body s) as [[[]|[]] s1]; cbn [snd] in E1 |- *; subst s1;
    try (exists evs1; reflexivity).
  destruct (Hh (evs1 ++ s)) as [evs2 E2]. exists (evs2 ++ evs1).
  rewrite E2, app_assoc. reflexivity.
Qed.

Lemma extends_getitem {nd : Type} (d : string -> option nd) (k : string) :
  extends (getitem nd d k).
Proof. unfold getitem. destruct (d k); [apply extends_ret|apply extends_raise]. Qed.

Lemma extends_raise_if (c : bool) (msg : string) : extends (raise_if c msg).
Proof. unfold raise_if. destruct c; [apply extends_raise|apply extends_ret]. Qed.

Lemma extends_clear_figure : extends clear_figure.
Proof. unfold clear_figure. apply extends_bind; intros; apply extends_emit. Qed.

Ltac solve_extends :=
  repeat first
    [ progress cbv zeta
    | apply extends_bind; intros
    | apply extends_try
    | apply extends_emit
    | apply extends_lift
    | apply extends_ret
    | apply extends_raise
    | apply extends_getitem
    | apply extends_raise_if
    | apply extends_clear_figure ].




Ltac prefix_of l s :=
  match l with
  | s => constr:(@nil event)
  | ?x :: ?l' => let p := prefix_of l' s in constr:(x :: p)
  end.

Section ExtraPipeline.

Variable ndarray : Type.
Variable ndim : ndarray -> nat.
Variable load_benchmark_images : string -> exn + (string -> option ndarray).
Variable isdir : string -> bool.
Variable get_fits_files_list : string -> list string.
Variable astype_float64 : ndarray -> ndarray.
Variable tailcut_clean_image : ndarray -> nat -> nat -> exn + ndarray.
Variable wavelets_clean_image : ndarray -> bool -> bool -> string -> exn + ndarray.
Variable assess_image_cleaning : ndarray -> ndarray -> ndarray -> string -> exn + string.
Variable plot_image : ndarray -> string -> exn + unit.
Variable plot_ellipse_shower_on_image : ndarray -> exn + unit.
Variable plot_hit_distribution : ndarray -> string -> exn + unit.
Variable savefig : string -> exn + unit.
Variable draw_image : ndarray -> string -> exn + unit.

Lemma main_loop_good (quiet : bool) (L : list string) (fs : list string) :
  forall output log,
  Forall (fun p => isdir p = false /\
     exists d i r, load_benchmark_images p = inr d /\
       d "input_image"%string = Some i /\ d "reference_image"%string = Some r /\
       ndim i = 2%nat /\ ndim r = 2%nat /\
       plot_image r "Reference image" = inr tt /\
       plot_ellipse_shower_on_image r = inr tt /\
       plot_hit_distribution r "Perpendicular hit distribution" = inr tt) fs ->
  savefig (match output with Some o => o | None => default_output (hd EmptyString fs) end)
    = inr tt ->
  exists evs,
    main_loop ndarray ndim load_benchmark_images isdir get_fits_files_list
    plot_image plot_ellipse_shower_on_image plot_hit_distribution savefig
      quiet L output fs log = (inr tt, evs ++ log) /\
    loaded_paths evs = fs /\
    saved_paths evs
      = repeat (match output with Some o => o | None => default_output (hd EmptyString fs) end)
               (List.length fs) /\
    show_count evs = (if quiet then 0 else List.length fs)%nat.
Proof.
  induction fs as [|f fs IH]; intros output log HF Hs.
  - exists []. split; [reflexivity|]. split; [reflexivity|]. split; [reflexivity|].
    destruct quiet; reflexivity.
  - inversion HF as [|? ? [Hd (d & i & r & Hl & Hi & Hr & Ni & Nr & P1 & P2 & P3)] HF'];
      subst.
    cbv beta iota zeta delta [main_loop expand_arg process_files bind ret].
    rewrite Hd.
    assert (Hs1 : savefig (match output with
                           | Some o => o
                           | None => (fst (splitext (basename f)) ++ ".pdf")%string
                           end) = inr tt)
      by (destruct output; exact Hs).
    rewrite (process_file_2d ndarray ndim load_benchmark_images plot_image
               plot_ellipse_shower_on_image plot_hit_distribution savefig quiet output f d i r log
               Hl Hi Hr Ni Nr P1 P2 P3 Hs1).
    set (o1 := match output with
               | Some o => o
               | None => (fst (splitext (basename f)) ++ ".pdf")%string
               end).
    set (E1 := (if quiet then [] else [Show]) ++
               [SaveFig o1; PlotHitDistribution "Perpendicular hit distribution"%string;
                PlotEllipse; PlotImage "Reference image"%string; Subplots; Load f]).
    replace ((if quiet then [] else [Show]) ++
             SaveFig o1 :: PlotHitDistribution "Perpendicular hit distribution"%string ::
             PlotEllipse :: PlotImage "Reference image"%string :: Subplots :: Load f :: log)
      with (E1 ++ log) by (unfold E1; destruct quiet; reflexivity).
    destruct (IH (Some o1) (E1 ++ log) HF' Hs1) as (evs & Hrun & Hload & Hsave & Hshow).
    change (main_loop ndarray ndim load_benchmark_images isdir get_fits_files_list
    plot_image plot_ellipse_shower_on_image plot_hit_distribution savefig
              quiet L (Some o1) fs (E1 ++ log) = (inr tt, evs ++ E1 ++ log)) in Hrun.
    exists (evs ++ E1). rewrite <- app_assoc. split; [exact Hrun|].
    rewrite loaded_paths_app, saved_paths_app, show_count_app, Hload, Hsave, Hshow.
    unfold E1. destruct quiet; cbn; repeat split; try lia;
      unfold o1, default_output; destruct output; reflexivity.
Qed.


(** X10: the batch script on files that are not directories, hold 2D
    input and reference images, and whose reference image the three
    plotting routines accept, with a [savefig] that succeeds: it returns
    normally, loads the files in
    the order given, saves one figure per file, every one to the same
    path ([--output], else the default name of the first file), and calls
    [plt.show()] once per file unless [--quiet]. *)
Theorem main_good_files_trace (quiet : bool) (output : option string)
    (fileargs : list string) (log : list event) :
  Forall (fun p => isdir p = false /\
     exists d i r, load_benchmark_images p = inr d /\
       d "input_image"%string = Some i /\ d "reference_image"%string = Some r /\
       ndim i = 2%nat /\ ndim r = 2%nat /\
       plot_image r "Reference image" = inr tt /\
       plot_ellipse_shower_on_image r = inr tt /\
       plot_hit_distribution r "Perpendicular hit distribution" = inr tt) fileargs ->
  savefig (match output with
           | Some o => o
           | None => default_output (hd EmptyString fileargs)
           end) = inr tt ->
  let res := main ndarray ndim load_benchmark_images isdir get_fits_files_list
    plot_image plot_ellipse_shower_on_image plot_hit_distribution savefig
               quiet output fileargs log in
  fst res = inr tt /\
  loaded_paths (snd res) = loaded_paths log ++ fileargs /\
  saved_paths (snd res)
    = saved_paths log ++
      repeat (match output with
              | Some o => o
              | None => default_output (hd EmptyString fileargs)
              end) (List.length fileargs) /\
  show_count (snd res) = (show_count log + if quiet then 0 else List.length fileargs)%nat.
Proof.
  intros HF Hsave res. unfold res, main.
  destruct (main_loop_good quiet fileargs fileargs output log HF Hsave)
    as (evs & -> & Hl & Hs & Hc).
  cbn [fst snd]. rewrite loaded_paths_app, saved_paths_app, show_count_app, Hl, Hs, Hc.
  repeat split. lia.
Qed.

Lemma expand_arg_log (locals : list (string * pyval)) (p : string) (s : list event) :
  snd (expand_arg isdir get_fits_files_list locals p s) = s.
Proof.
  unfold expand_arg, lookup_name, bind, ret, raise.
  destruct (isdir p); [|reflexivity].
  destruct (assoc "input_directory_path" locals) as [[]|];
    [reflexivity..|].
  destruct (assoc "input_directory_path" module_globals) as [[]|]; reflexivity.
Qed.

Lemma process_file_quiet (output : option string) (p : string) (s : list event) :
  show_count (snd (process_file ndarray ndim load_benchmark_images
    plot_image plot_ellipse_shower_on_image plot_hit_distribution savefig true output p s))
  = show_count s.
Proof.
  unfold process_file, call, bind, emit, lift, getitem, raise_if, ret, raise.
  destruct (load_benchmark_images p) as [e|d]; [reflexivity|].
  destruct (d "input_image"%string); [|reflexivity].
  destruct (d "reference_image"%string); [|reflexivity].
  destruct (negb _); [reflexivity|]. destruct (negb _); [reflexivity|].
  destruct (plot_image _ _); [reflexivity|].
  destruct (plot_ellipse_shower_on_image _); [reflexivity|].
  destruct (plot_hit_distribution _ _); [reflexivity|].
  destruct (savefig _); reflexivity.
Qed.

Lemma process_files_quiet (fs : list string) : forall output s,
  show_count (snd (process_files ndarray ndim load_benchmark_images
    plot_image plot_ellipse_shower_on_image plot_hit_distribution savefig true output fs s))
  = show_count s.
Proof.
  induction fs as [|f fs IH]; intros output s; [reflexivity|].
  cbn [process_files]. unfold bind at 1.
  pose proof (process_file_quiet output f s) as H.
  destruct (process_file ndarray ndim load_benchmark_images
    plot_image plot_ellipse_shower_on_image plot_hit_distribution savefig true output f s) as [[e|o] s1].
  - exact H.
  - rewrite IH. exact H.
Qed.

(** X11: with [--quiet] the batch script never calls [plt.show()], whatever
    the arguments, the files and the exceptions raised. *)
Theorem quiet_main_never_shows (output : option string) (fileargs : list string)
    (log : list event) :
  show_count (snd (main ndarray ndim load_benchmark_images isdir get_fits_files_list
    plot_image plot_ellipse_shower_on_image plot_hit_distribution savefig
                        true output fileargs log)) = show_count log.
Proof.
  unfold main. generalize fileargs at 1 as L. intros L.
  revert output log; induction fileargs as [|a rest IH]; intros output log; [reflexivity|].
  cbn [main_loop]. unfold bind at 1.
  pose proof (expand_arg_log (main_locals true output L a) a log) as E.
  destruct (expand_arg isdir get_fits_files_list (main_locals true output L a) a log)
    as [[e|fs] s1]; cbn [snd] in E; subst s1; [reflexivity|].
  unfold bind at 1.
  pose proof (process_files_quiet fs output log) as H.
  destruct (process_files ndarray ndim load_benchmark_images
    plot_image plot_ellipse_shower_on_image plot_hit_distribution savefig true output fs log)
    as [[e|o] s2]; cbn [snd] in H |- *; [exact H|].
  rewrite IH. exact H.
Qed.


(** X12: a file whose images dict lacks ["input_image"] or
    ["reference_image"] raises [KeyError] right after loading, in [main]
    and in [update_plots]. *)
Theorem missing_image_key_raises (p k : string) (d : string -> option ndarray) :
  load_benchmark_images p = inr d ->
  ((k = "input_image"%string /\ d k = None) \/
   (k = "reference_image"%string /\ (exists i, d "input_image"%string = Some i) /\ d k = None)) ->
  (forall quiet output rest log, isdir p = false ->
     main ndarray ndim load_benchmark_images isdir get_fits_files_list
    plot_image plot_ellipse_shower_on_image plot_hit_distribution savefig quiet output (p :: rest) log
       = (inl (KeyError k), Load p :: log)) /\
  (forall self log, current_file_path self = Some p ->
     update_plots ndarray ndim load_benchmark_images astype_float64 tailcut_clean_image
       wavelets_clean_image assess_image_cleaning draw_image self log
       = (inl (KeyError k), Load p :: log)).
Proof.
  intros Hl Hk. split.
  - intros quiet output rest log Hd. unfold main.
    cbv beta iota zeta delta [main_loop expand_arg process_files bind ret].
    rewrite Hd. unfold process_file, bind, emit, lift, getitem, ret, raise.
    rewrite Hl. destruct Hk as [[-> ->]|[-> [[i ->] ->]]]; reflexivity.
  - intros self log Hc. unfold update_plots. rewrite Hc.
    unfold bind, emit, lift, getitem, ret, raise.
    rewrite Hl. destruct Hk as [[-> ->]|[-> [[i ->] ->]]]; reflexivity.
Qed.

(** X13: an exception raised by [load_benchmark_images] propagates out of
    [main] and [update_plots] with nothing done after the load. *)
Theorem load_failure_propagates (p : string) (e : exn) :
  load_benchmark_images p = inl e ->
  (forall quiet output rest log, isdir p = false ->
     main ndarray ndim load_benchmark_images isdir get_fits_files_list
    plot_image plot_ellipse_shower_on_image plot_hit_distribution savefig quiet output (p :: rest) log
       = (inl e, Load p :: log)) /\
  (forall self log, current_file_path self = Some p ->
     update_plots ndarray ndim load_benchmark_images astype_float64 tailcut_clean_image
       wavelets_clean_image assess_image_cleaning draw_image self log
       = (inl e, Load p :: log)).
Proof.
  intros Hl. split.
  - intros quiet output rest log Hd. unfold main.
    cbv beta iota zeta delta [main_loop expand_arg process_files bind ret].
    rewrite Hd. unfold process_file, bind, emit, lift. rewrite Hl. reflexivity.
  - intros self log Hc. unfold update_plots. rewrite Hc.
    unfold bind, emit, lift. rewrite Hl. reflexivity.
Qed.

(** X14: in [update_plots], an exception of the tailcut cleaning propagates
    before anything is printed; one of the wavelet cleaning propagates
    after only the option string is printed. *)
Theorem cleaning_failure_propagates (self : container) (p : string)
    (d : string -> option ndarray) (i r : ndarray) (e : exn) (log : list event) :
  current_file_path self = Some p ->
  load_benchmark_images p = inr d ->
  d "input_image"%string = Some i -> d "reference_image"%string = Some r ->
  ndim i = 2%nat -> ndim r = 2%nat ->
  (tailcut_clean_image (astype_float64 i) 10 5 = inl e ->
   update_plots ndarray ndim load_benchmark_images astype_float64 tailcut_clean_image
     wavelets_clean_image assess_image_cleaning draw_image self log = (inl e, Load p :: log)) /\
  (forall tci, tailcut_clean_image (astype_float64 i) 10 5 = inr tci ->
   wavelets_clean_image (astype_float64 i) (kill_isolated_pixels self) true
     (wavelets_options self) = inl e ->
   update_plots ndarray ndim load_benchmark_images astype_float64 tailcut_clean_image
     wavelets_clean_image assess_image_cleaning draw_image self log
     = (inl e, Print [wavelets_options self] :: Load p :: log)).
Proof.
  intros Hc Hl Hi Hr Hni Hnr. unfold update_plots. rewrite Hc.
  unfold bind, emit, lift, getitem, raise_if, ret.
  rewrite Hl, Hi, Hr, Hni, Hnr. cbn [negb Nat.eqb].
  split.
  - intros Ht. rewrite Ht. reflexivity.
  - intros tci Ht Hw. rewrite Ht, Hw. reflexivity.
Qed.

(** X15: in [update_plots], an exception other than [AssessError] raised by
    either assessment is not caught: it propagates, and the figure is
    neither cleared, nor drawn, nor the canvas redrawn. *)
Theorem other_assess_exception_propagates (self : container) (p : string)
    (d : string -> option ndarray) (i r tci wci : ndarray) (rt rw : exn + string)
    (e : exn) (log : list event) :
  current_file_path self = Some p ->
  load_benchmark_images p = inr d ->
  d "input_image"%string = Some i -> d "reference_image"%string = Some r ->
  ndim i = 2%nat -> ndim r = 2%nat ->
  tailcut_clean_image (astype_float64 i) 10 5 = inr tci ->
  wavelets_clean_image (astype_float64 i) (kill_isolated_pixels self) true
    (wavelets_options self) = inr wci ->
  assess_image_cleaning i tci r "all" = rt ->
  assess_image_cleaning i wci r "all" = rw ->
  e <> AssessError ->
  (rt = inl e \/ ((rt = inl AssessError \/ exists sc, rt = inr sc) /\ rw = inl e)) ->
  exists evs,
    update_plots ndarray ndim load_benchmark_images astype_float64 tailcut_clean_image
      wavelets_clean_image assess_image_cleaning draw_image self log = (inl e, evs ++ log) /\
    ~ In Clf evs /\ ~ In CanvasDraw evs /\ (forall t, ~ In (DrawImage t) evs).
Proof.
  intros Hc Hl Hi Hr Hni Hnr Htc Hwc Hrt Hrw He Hcase.
  unfold update_plots. rewrite Hc.
  unfold clear_figure, try_except_assess, bind, emit, lift, getitem, raise_if, ret.
  rewrite Hl, Hi, Hr, Hni, Hnr. cbn [negb Nat.eqb].
  rewrite Htc, Hwc, Hrt, Hrw.
  destruct Hcase as [->|[[->|[sc ->]] ->]];
    (destruct e; [..|exfalso; apply He; reflexivity]);
    cbn;
    match goal with
    | |- exists evs, (?a, ?l) = (_, evs ++ ?s) /\ _ =>
        let p := prefix_of l s in exists p
    end;
    (split; [reflexivity|]); cbn; (split; [|split]); intuition discriminate.
Qed.

(** X16: when both assessments return, [update_plots] prints the option
    string, the two execution times and the two scores in this order, then
    clears the figure, adds the four subplots, draws the four images and
    redraws the canvas (when [_draw_image] accepts the four images). *)
Theorem update_plots_success_trace (self : container) (p : string)
    (d : string -> option ndarray) (i r tci wci : ndarray) (st sw : string)
    (log : list event) :
  current_file_path self = Some p ->
  load_benchmark_images p = inr d ->
  d "input_image"%string = Some i -> d "reference_image"%string = Some r ->
  ndim i = 2%nat -> ndim r = 2%nat ->
  tailcut_clean_image (astype_float64 i) 10 5 = inr tci ->
  wavelets_clean_image (astype_float64 i) (kill_isolated_pixels self) true
    (wavelets_options self) = inr wci ->
  assess_image_cleaning i tci r "all" = inr st ->
  assess_image_cleaning i wci r "all" = inr sw ->
  draw_image i "Input" = inr tt -> draw_image r "Reference" = inr tt ->
  draw_image tci "Tailcut" = inr tt -> draw_image wci "Wavelets" = inr tt ->
  update_plots ndarray ndim load_benchmark_images astype_float64 tailcut_clean_image
    wavelets_clean_image assess_image_cleaning draw_image self log
  = (inr tt,
     [CanvasDraw; DrawImage "Wavelets"; DrawImage "Tailcut";
      DrawImage "Reference"; DrawImage "Input";
      AddSubplot 224; AddSubplot 223; AddSubplot 222; AddSubplot 221;
      CanvasDraw; Clf;
      Print ["WT:"; sw]; Print ["TC:"; st];
      Print ["Wavelets execution time: "; elapsed];
      Print ["Tailcut execution time: "; elapsed];
      Print [wavelets_options self]; Load p]%string ++ log).
Proof.
  intros Hc Hl Hi Hr Hni Hnr Htc Hwc Hrt Hrw D1 D2 D3 D4.
  unfold update_plots. rewrite Hc.
  unfold clear_figure, call, try_except_assess, bind, emit, lift, getitem, raise_if, ret.
  rewrite Hl, Hi, Hr, Hni, Hnr. cbn [negb Nat.eqb].
  rewrite Htc, Hwc, Hrt, Hrw, D1, D2, D3, D4. reflexivity.
Qed.

Lemma update_plots_starts_with_load (self : container) (p : string) (log : list event) :
  current_file_path self = Some p ->
  exists evs,
    snd (update_plots ndarray ndim load_benchmark_images astype_float64 tailcut_clean_image
           wavelets_clean_image assess_image_cleaning draw_image self log) = evs ++ Load p :: log.
Proof.
  intros Hc. unfold update_plots. rewrite Hc.
  unfold bind at 1, emit at 1. cbv beta iota.
  match goal with
  | |- exists evs, snd (?m ?s) = evs ++ ?s => enough (H : extends m) by apply H
  end.
  solve_extends.
Qed.

(** X17: selecting [file_name] in the GUI sets the current file to
    [os.path.join(input_directory_path, file_name)], keeps the other
    attributes, and the [update_plots] that follows loads that path first;
    the joined path always has the base name of [file_name]. *)
Theorem selection_changed_loads_joined_path (self : container) (file_name : string)
    (log : list event) :
  let path := os_path_join (input_directory_path self) file_name in
  let self' := fst (selection_changed_callback ndarray ndim load_benchmark_images
                     astype_float64 tailcut_clean_image wavelets_clean_image
                     assess_image_cleaning draw_image self file_name) in
  let run := snd (selection_changed_callback ndarray ndim load_benchmark_images
                     astype_float64 tailcut_clean_image wavelets_clean_image
                     assess_image_cleaning draw_image self file_name) in
  current_file_path self' = Some path /\
  input_directory_path self' = input_directory_path self /\
  kill_isolated_pixels self' = kill_isolated_pixels self /\
  wavelets_options self' = wavelets_options self /\
  basename path = basename file_name /\
  exists evs, snd (run log) = evs ++ Load path :: log.
Proof.
  intros path self' run.
  split; [reflexivity|]. split; [reflexivity|]. split; [reflexivity|]. split; [reflexivity|].
  split; [apply basename_os_path_join|].
  apply update_plots_starts_with_load. reflexivity.
Qed.


(** X18: when [plot_image], [plot_ellipse_shower_on_image] or
    [plot_perpendicular_hit_distribution] raises on the reference image of
    the first file (for instance on an empty image), or [savefig] raises, the batch script raises that exception:
    no figure is recorded as saved and [plt.show()] is not called. *)
Theorem plot_failure_nothing_saved (quiet : bool) (output : option string)
    (p : string) (rest : list string) (d : string -> option ndarray) (i r : ndarray)
    (e : exn) (log : list event) :
  isdir p = false ->
  load_benchmark_images p = inr d ->
  d "input_image"%string = Some i -> d "reference_image"%string = Some r ->
  ndim i = 2%nat -> ndim r = 2%nat ->
  (plot_image r "Reference image" = inl e \/
   (plot_image r "Reference image" = inr tt /\
    plot_ellipse_shower_on_image r = inl e) \/
   (plot_image r "Reference image" = inr tt /\
    plot_ellipse_shower_on_image r = inr tt /\
    plot_hit_distribution r "Perpendicular hit distribution" = inl e) \/
   (plot_image r "Reference image" = inr tt /\
    plot_ellipse_shower_on_image r = inr tt /\
    plot_hit_distribution r "Perpendicular hit distribution" = inr tt /\
    savefig (match output with Some o => o | None => default_output p end) = inl e)) ->
  exists evs,
    main ndarray ndim load_benchmark_images isdir get_fits_files_list
      plot_image plot_ellipse_shower_on_image plot_hit_distribution savefig
      quiet output (p :: rest) log = (inl e, evs ++ Load p :: log) /\
    saved_paths evs = [] /\ show_count evs = 0%nat.
Proof.
  intros Hd Hl Hi Hr Hni Hnr Hcase. unfold main.
  cbv beta iota zeta delta [main_loop expand_arg process_files bind ret].
  rewrite Hd.
  unfold process_file, call, bind, emit, lift, getitem, raise_if, ret.
  rewrite Hl, Hi, Hr, Hni, Hnr. cbn [negb Nat.eqb].
  unfold default_output in Hcase.
  destruct Hcase as [H1|[[H1 H2]|[[H1 [H2 H3]]|[H1 [H2 [H3 H4]]]]]];
    rewrite ?H1, ?H2, ?H3, ?H4; cbn;
    [exists [Subplots] | exists [PlotImage "Reference image"%string; Subplots]
    | exists [PlotEllipse; PlotImage "Reference image"%string; Subplots]
    | exists [PlotHitDistribution "Perpendicular hit distribution"%string;
              PlotEllipse; PlotImage "Reference image"%string; Subplots]];
    repeat split.
Qed.


End ExtraPipeline.

(* ------------------------------------------------------------------ *)
(** ** Witnesses of the further properties *)

(** X2: row 1, column 2 of the grid. *)
Lemma hit_cloud_pixel_position_witness :
  (1 < 40)%nat /\ (2 < 40)%nat /\
  nth (1 * 40 + 2) (combine (flatten xx) (flatten yy)) (0, 0)
  = (-0.142555996776 + INR 2 * (0.285111993552 / 39),
     -0.142555996776 + INR 1 * (0.285111993552 / 39)).
Proof.
  split; [lia|]. split; [lia|].
  apply (hit_cloud_pixel_position 1 2); lia.
Defined.

(** X3: pixel (1, 2) of a 2 x 3 image. *)
Lemma ellipse_cloud_coordinates_witness :
  List.length [[1; 2; 3]; [4; 5; 6]] = 2%nat /\
  Forall (fun row => List.length row = 3%nat) [[1; 2; 3]; [4; 5; 6]] /\
  (1 < 2)%nat /\ (2 < 3)%nat /\
  let '(xs, ys, ws) := ellipse_cloud [[1; 2; 3]; [4; 5; 6]] in
  nth (1 * 3 + 2) ws 0 = nth 2 (nth 1 [[1; 2; 3]; [4; 5; 6]] []) 0 /\
  nth (1 * 3 + 2) xs 0 = INR ((1 * 3 + 2) mod 2) /\
  nth (1 * 3 + 2) ys 0 = INR ((1 * 3 + 2) / 2) /\
  (2%nat = 3%nat -> nth (1 * 3 + 2) xs 0 = INR 2 /\ nth (1 * 3 + 2) ys 0 = INR 1).
Proof.
  split; [reflexivity|]. split; [repeat constructor|]. split; [lia|]. split; [lia|].
  apply (ellipse_cloud_coordinates [[1; 2; 3]; [4; 5; 6]] 2 3 1 2);
    [reflexivity|repeat constructor|lia|lia].
Defined.

(** X4: centroid (0, 0), length 1, psi = 0. *)
Lemma transverse_distance_along_psi_witness :
  0 < length (mk_hillas 0 0 1 1 0) /\
  transverse_distances (mk_hillas 0 0 1 1 0)
  = map (fun '(x, y) => (x - 0) * cos 0 + (y - 0) * sin 0)
        (combine (flatten xx) (flatten yy)).
Proof.
  split; [simpl; lra|].
  apply (transverse_distance_along_psi (mk_hillas 0 0 1 1 0)). simpl. lra.
Defined.

(** X5: centroid (0, 0), length -1, psi = 0. *)
Lemma transverse_distance_bounded_witness :
  length (mk_hillas 0 0 (-1) 1 0) <> 0 /\
  Forall (fun '(d, (x, y)) => d * d <= (0 - x) * (0 - x) + (0 - y) * (0 - y))
         (combine (transverse_distances (mk_hillas 0 0 (-1) 1 0))
                  (combine (flatten xx) (flatten yy))).
Proof.
  split; [simpl; lra|].
  apply (transverse_distance_bounded (mk_hillas 0 0 (-1) 1 0)). simpl. lra.
Defined.

(** X8: the image [[1; 2]; [3]]. *)
Lemma image_colour_range_witness :
  draw_image_norm [[1; 2]; [3]]
    = Some (Linear (fold_left Rmin [2; 3] 1) (fold_left Rmax [2; 3] 1)) /\
  (forall v, In v [1; 2; 3] -> fold_left Rmin [2; 3] 1 <= v <= fold_left Rmax [2; 3] 1).
Proof.
  split; [reflexivity|].
  exact (proj1 (image_colour_range [[1; 2]; [3]] _ _ eq_refl)).
Defined.

(** X10: two good files "a.fits" and "b.fits", not quiet, no [--output]. *)
Lemma main_good_files_trace_witness :
  let res := main nat (fun n => n) (fun _ => inr (fun _ => Some 2%nat))
               (fun _ => false) (fun _ => []) (fun _ _ => inr tt) (fun _ => inr tt) (fun _ _ => inr tt) (fun _ => inr tt) false None ["a.fits"; "b.fits"]%string [] in
  fst res = inr tt /\
  loaded_paths (snd res) = ["a.fits"; "b.fits"]%string /\
  saved_paths (snd res) = ["a.pdf"; "a.pdf"]%string /\
  show_count (snd res) = 2%nat.
Proof.
  pose proof (main_good_files_trace nat (fun n => n) (fun _ => inr (fun _ => Some 2%nat))
                (fun _ => false) (fun _ => []) (fun _ _ => inr tt) (fun _ => inr tt) (fun _ _ => inr tt) (fun _ => inr tt) false None ["a.fits"; "b.fits"]%string [])
    as H.
  destruct H as (H1 & H2 & H3 & H4).
  - apply Forall_forall. intros p _. split; [reflexivity|].
    exists (fun _ => Some 2%nat), 2%nat, 2%nat. repeat split.
  - reflexivity.
  - intros res. unfold res. rewrite H2, H3, H4. split; [exact H1|]. split; [reflexivity|]. split; reflexivity.
Defined.

(** X12: a dict without ["input_image"]. *)
Lemma missing_image_key_raises_witness :
  update_plots nat (fun n => n)
    (fun _ => inr (fun k => if String.eqb k "input_image" then None else Some 2%nat))
    (fun n => n) (fun n _ _ => inr n) (fun n _ _ _ => inr n) (fun _ _ _ _ => inr "scores"%string)
    (fun _ _ => inr tt) (mk_container "dir" (Some "a.fits"%string) false "") []
  = (inl (KeyError "input_image"), [Load "a.fits"]).
Proof.
  apply (proj2 (missing_image_key_raises nat (fun n => n)
    (fun _ => inr (fun k => if String.eqb k "input_image" then None else Some 2%nat))
    (fun _ => false) (fun _ => []) (fun n => n) (fun n _ _ => inr n) (fun n _ _ _ => inr n)
    (fun _ _ _ _ => inr "scores"%string) (fun _ _ => inr tt) (fun _ => inr tt) (fun _ _ => inr tt) (fun _ => inr tt) (fun _ _ => inr tt) "a.fits" "input_image"
    (fun k => if String.eqb k "input_image" then None else Some 2%nat)
    eq_refl (or_introl (conj eq_refl eq_refl)))).
  reflexivity.
Defined.

(** X13: a loader that raises. *)
Lemma load_failure_propagates_witness :
  main nat (fun n => n) (fun _ => inl (Exception "no such file")) (fun _ => false)
    (fun _ => []) (fun _ _ => inr tt) (fun _ => inr tt) (fun _ _ => inr tt) (fun _ => inr tt) true None ["a.fits"; "b.fits"]%string []
  = (inl (Exception "no such file"), [Load "a.fits"]).
Proof.
  apply (proj1 (load_failure_propagates nat (fun n => n)
    (fun _ => inl (Exception "no such file")) (fun _ => false) (fun _ => []) (fun n => n)
    (fun n _ _ => inr n) (fun n _ _ _ => inr n) (fun _ _ _ _ => inr "scores"%string)
    (fun _ _ => inr tt) (fun _ => inr tt) (fun _ _ => inr tt) (fun _ => inr tt) (fun _ _ => inr tt) "a.fits" (Exception "no such file") eq_refl)).
  reflexivity.
Defined.

(** X14: a tailcut cleaning that raises. *)
Lemma cleaning_failure_propagates_witness :
  update_plots nat (fun n => n) (fun _ => inr (fun _ => Some 2%nat)) (fun n => n)
    (fun _ _ _ => inl (Exception "tailcut")) (fun n _ _ _ => inr n)
    (fun _ _ _ _ => inr "scores"%string) (fun _ _ => inr tt)
    (mk_container "dir" (Some "a.fits"%string) false "") []
  = (inl (Exception "tailcut"), [Load "a.fits"]).
Proof.
  apply (proj1 (cleaning_failure_propagates nat (fun n => n) (fun _ => inr (fun _ => Some 2%nat))
    (fun n => n) (fun _ _ _ => inl (Exception "tailcut")) (fun n _ _ _ => inr n)
    (fun _ _ _ _ => inr "scores"%string) (fun _ _ => inr tt)
    (mk_container "dir" (Some "a.fits"%string) false "") "a.fits" (fun _ => Some 2%nat)
    2%nat 2%nat (Exception "tailcut") [] eq_refl eq_refl eq_refl eq_refl eq_refl eq_refl)).
  reflexivity.
Defined.

(** X15: an assessment raising a plain [Exception]. *)
Lemma other_assess_exception_propagates_witness :
  exists evs,
    update_plots nat (fun n => n) (fun _ => inr (fun _ => Some 2%nat)) (fun n => n)
      (fun n _ _ => inr n) (fun n _ _ _ => inr n) (fun _ _ _ _ => inl (Exception "assess"))
      (fun _ _ => inr tt) (mk_container "dir" (Some "a.fits"%string) false "") []
    = (inl (Exception "assess"), evs ++ []) /\
    ~ In Clf evs /\ ~ In CanvasDraw evs /\ (forall t, ~ In (DrawImage t) evs).
Proof.
  exact (other_assess_exception_propagates nat (fun n => n) (fun _ => inr (fun _ => Some 2%nat))
    (fun _ => false) (fun _ => []) (fun n => n) (fun n _ _ => inr n) (fun n _ _ _ => inr n)
    (fun _ _ _ _ => inl (Exception "assess")) 
    (fun _ _ => inr tt) (fun _ => inr tt) (fun _ _ => inr tt) (fun _ => inr tt) (fun _ _ => inr tt)
    (mk_container "dir" (Some "a.fits"%string) false "") "a.fits" (fun _ => Some 2%nat)
    2%nat 2%nat 2%nat 2%nat (inl (Exception "assess")) (inl (Exception "assess"))
    (Exception "assess") [] eq_refl eq_refl eq_refl eq_refl eq_refl eq_refl eq_refl eq_refl
    eq_refl eq_refl ltac:(discriminate) (or_introl eq_refl)).
Defined.

(** X16: both assessments return scores. *)
Lemma update_plots_success_trace_witness :
  snd (update_plots nat (fun n => n) (fun _ => inr (fun _ => Some 2%nat)) (fun n => n)
         (fun n _ _ => inr n) (fun n _ _ _ => inr n) (fun _ _ _ _ => inr "scores"%string)
         (fun _ _ => inr tt) (mk_container "dir" (Some "a.fits"%string) false "-K") [])
  = [CanvasDraw; DrawImage "Wavelets"; DrawImage "Tailcut";
     DrawImage "Reference"; DrawImage "Input";
     AddSubplot 224; AddSubplot 223; AddSubplot 222; AddSubplot 221;
     CanvasDraw; Clf;
     Print ["WT:"; "scores"]; Print ["TC:"; "scores"];
     Print ["Wavelets execution time: "; elapsed];
     Print ["Tailcut execution time: "; elapsed];
     Print ["-K"]; Load "a.fits"]%string.
Proof.
  rewrite (update_plots_success_trace nat (fun n => n) (fun _ => inr (fun _ => Some 2%nat))
    (fun n => n) (fun n _ _ => inr n) (fun n _ _ _ => inr n)
    (fun _ _ _ _ => inr "scores"%string) (fun _ _ => inr tt)
    (mk_container "dir" (Some "a.fits"%string) false "-K") "a.fits" (fun _ => Some 2%nat)
    2%nat 2%nat 2%nat 2%nat "scores" "scores" []
    eq_refl eq_refl eq_refl eq_refl eq_refl eq_refl eq_refl eq_refl eq_refl eq_refl
    eq_refl eq_refl eq_refl eq_refl).
  reflexivity.
Defined.

(** X18: a reference image that [plot_image] refuses. *)
Lemma plot_failure_nothing_saved_witness :
  exists evs,
    main nat (fun n => n) (fun _ => inr (fun _ => Some 2%nat)) (fun _ => false) (fun _ => [])
      (fun _ _ => inl (Exception "plot")) (fun _ => inr tt) (fun _ _ => inr tt) (fun _ => inr tt)
      false None ["a.fits"; "b.fits"]%string []
    = (inl (Exception "plot"), evs ++ [Load "a.fits"%string]) /\
    saved_paths evs = [] /\ show_count evs = 0%nat.
Proof.
  exact (plot_failure_nothing_saved nat (fun n => n) (fun _ => inr (fun _ => Some 2%nat))
    (fun _ => false) (fun _ => []) (fun _ _ => inl (Exception "plot")) (fun _ => inr tt)
    (fun _ _ => inr tt) (fun _ => inr tt) false None "a.fits" ["b.fits"%string]
    (fun _ => Some 2%nat) 2%nat 2%nat (Exception "plot") []
    eq_refl eq_refl eq_refl eq_refl eq_refl eq_refl (or_introl eq_refl)).
Defined.

